(** * Amp Task Management: the request-translation layer of [server.js]

    A shallow embedding of the proxy in [src/server.js]: credential
    resolution ([getApiKey]), the remote-call adapter ([ampApiRequest]),
    request-body parsing ([parseBody]) and the route table of the HTTP
    server ([server]), followed by the properties of the specification
    that concern them.

    Conventions.
    - JavaScript strings are byte strings holding their UTF-8 encoding.
    - A JavaScript value is a [value]; a JSON text is a [text], that is a
      string seen through the only two observations the program makes on
      it (is it empty, and what does [JSON.parse] return on it).
    - Code that may throw returns a [result]; code that may also issue
      HTTPS requests returns an [M], which carries the requests issued.
    - What the Node.js process is given from outside (environment, files,
      the remote peer, the clock, the number printer of the engine) is a
      [host]. *)

From Stdlib Require Import String Ascii List ZArith QArith Bool Lia DecimalString.
Import ListNotations.
Local Open Scope string_scope.
Local Open Scope Z_scope.
Set Warnings "-register-all".

(* ================================================================== *)
(** ** JavaScript values *)
(* ================================================================== *)

(** A JavaScript number: a double.  Every finite double is a rational;
    [-0] is not told apart from [0] (both are falsy and both serialise
    as [0]). *)
Inductive number : Type :=
| NaN
| Infinity (negative : bool)
| Finite (q : Q).

Inductive value : Type :=
| VUndefined
| VNull
| VBool (b : bool)
| VNum (n : number)
| VStr (s : string)
| VArr (items : list value)
| VObj (props : list (string * value)).

(** The own properties of an object literal or of a parsed JSON object,
    in insertion order. *)
Definition object : Type := list (string * value).

(** An induction principle that reaches inside arrays and objects. *)
Section ValueInd.
Variable P : value -> Prop.
Hypothesis Hundef : P VUndefined.
Hypothesis Hnull : P VNull.
Hypothesis Hbool : forall b, P (VBool b).
Hypothesis Hnum : forall n, P (VNum n).
Hypothesis Hstr : forall s, P (VStr s).
Hypothesis Harr : forall items, Forall P items -> P (VArr items).
Hypothesis Hobj : forall props, Forall (fun kv => P (snd kv)) props -> P (VObj props).

Fixpoint value_ind' (v : value) : P v :=
  match v with
  | VUndefined => Hundef
  | VNull => Hnull
  | VBool b => Hbool b
  | VNum n => Hnum n
  | VStr s => Hstr s
  | VArr items =>
      Harr items
        ((fix all (l : list value) : Forall P l :=
            match l with
            | [] => Forall_nil _
            | x :: l' => Forall_cons _ (value_ind' x) (all l')
            end) items)
  | VObj props =>
      Hobj props
        ((fix all (l : list (string * value)) : Forall (fun kv => P (snd kv)) l :=
            match l with
            | [] => Forall_nil _
            | kv :: l' => Forall_cons _ (value_ind' (snd kv)) (all l')
            end) props)
  end.
End ValueInd.

Definition number_of_Z (z : Z) : number := Finite (inject_Z z).

(** [ToBoolean]: what [!x], [x || y] and [if (x)] test. *)
Definition number_truthy (n : number) : bool :=
  match n with
  | NaN => false
  | Infinity _ => true
  | Finite q => negb (Qnum q =? 0)
  end.

Definition ToBoolean (v : value) : bool :=
  match v with
  | VUndefined | VNull => false
  | VBool b => b
  | VNum n => number_truthy n
  | VStr s => negb (s =? "")%string
  | VArr _ | VObj _ => true
  end.

(** [a || b] on values already computed ([b] has no effect here). *)
Definition or_else (a b : value) : value := if ToBoolean a then a else b.

(** [x === undefined] *)
Definition is_undefined (v : value) : bool :=
  match v with VUndefined => true | _ => false end.

(** [x === 'lit'] for a string literal. *)
Definition is_string (lit : string) (v : value) : bool :=
  match v with VStr s => (s =? lit)%string | _ => false end.

(* ================================================================== *)
(** ** Exceptions *)
(* ================================================================== *)

(** A thrown [Error] object: the handler reads [message], the static
    file branch reads [code]. *)
Record exn : Type := mkExn { message : string; code : option string }.

Definition Error (msg : string) : exn := mkExn msg None.

Inductive result (A : Type) : Type :=
| Return (a : A)
| Throw (e : exn).
Arguments Return {A} a.
Arguments Throw {A} e.

Definition rbind {A B} (r : result A) (k : A -> result B) : result B :=
  match r with
  | Return a => k a
  | Throw e => Throw e
  end.

(** [try { r } catch (e) { h e }] *)
Definition try_catch {A} (r : result A) (h : exn -> result A) : result A :=
  match r with
  | Return a => Return a
  | Throw e => h e
  end.

Declare Scope js_scope.
Delimit Scope js_scope with js.
Notation "x <- r ;; k" := (rbind r (fun x => k))
  (at level 61, r at next level, right associativity) : js_scope.

(* ================================================================== *)
(** ** Objects: property lookup, keys, delete *)
(* ================================================================== *)

Fixpoint lookup (k : string) (o : object) : option value :=
  match o with
  | [] => None
  | (k', v) :: o' => if (k' =? k)%string then Some v else lookup k o'
  end.

(** [o[k]] on an object: [undefined] when [k] is not a property. *)
Definition prop (o : object) (k : string) : value :=
  match lookup k o with
  | Some v => v
  | None => VUndefined
  end.

(** [Object.keys(o)] *)
Definition keys (o : object) : list string := map fst o.

(** [delete o[k]] *)
Definition delete (k : string) (o : object) : object :=
  filter (fun kv => negb (fst kv =? k)%string) o.

(** The text V8 gives the [TypeError] of a property read on [null] or
    [undefined]. *)
Definition cannot_read (what k : string) : exn :=
  Error ("Cannot read properties of " ++ what ++ " (reading '" ++ k ++ "')").

(** [v[k]] / [v.k] on any value.  Reading a property of [null] or
    [undefined] throws; primitives and arrays have none of the property
    names this program reads ([title], [ok], [apiKey], ...). *)
Definition Get (v : value) (k : string) : result value :=
  match v with
  | VUndefined => Throw (cannot_read "undefined" k)
  | VNull => Throw (cannot_read "null" k)
  | VObj o => Return (prop o k)
  | VBool _ | VNum _ | VStr _ | VArr _ => Return VUndefined
  end.

(** [v?.k]: [undefined] instead of a throw on [null] and [undefined]. *)
Definition GetOpt (v : value) (k : string) : value :=
  match v with
  | VObj o => prop o k
  | _ => VUndefined
  end.

(* ================================================================== *)
(** ** JSON texts *)
(* ================================================================== *)

(** A string as this program observes it: whether it is empty (a falsy
    string) and what [JSON.parse] does with it. *)
Inductive text : Type :=
| Empty                 (* the empty string: falsy, and not JSON *)
| Malformed             (* not empty, [JSON.parse] throws a SyntaxError *)
| Json (v : value).     (* not empty, [JSON.parse] returns [v] *)

Definition text_truthy (t : text) : bool :=
  match t with Empty => false | _ => true end.

(** [JSON.parse(t)].  The text of its SyntaxError differs from input to
    input; every call site catches it and only logs it or replaces it. *)
Definition JSON_parse (t : text) : result value :=
  match t with
  | Json v => Return v
  | Empty => Throw (Error "Unexpected end of JSON input")
  | Malformed => Throw (Error "Unexpected token in JSON")
  end.

(** The value a JSON text written by [JSON.stringify] denotes: properties
    holding [undefined] are left out, [undefined] inside an array and the
    numbers that are not finite become [null]. *)
Fixpoint jsonify (v : value) : value :=
  match v with
  | VUndefined => VNull
  | VNum NaN | VNum (Infinity _) => VNull
  | VArr items => VArr (map jsonify items)
  | VObj props =>
      VObj ((fix go (l : list (string * value)) : list (string * value) :=
               match l with
               | [] => []
               | (k, x) :: l' =>
                   if is_undefined x then go l' else (k, jsonify x) :: go l'
               end) props)
  | _ => v
  end.

Fixpoint jsonify_props (l : object) : object :=
  match l with
  | [] => []
  | (k, x) :: l' =>
      if is_undefined x then jsonify_props l' else (k, jsonify x) :: jsonify_props l'
  end.

(** [JSON.stringify(v)].  On [undefined] it returns [undefined], which
    writes nothing; both call sites pass an object. *)
Definition JSON_stringify (v : value) : text :=
  match v with
  | VUndefined => Empty
  | _ => Json (jsonify v)
  end.

(** A value of the JSON data model: no [undefined], and only numbers
    that are finite.  These are the values [JSON.stringify] writes as
    they are.  [JSON.parse] returns such a value unless a number of the
    text overflows a double: [1e400] is parsed as [Infinity], which is
    written back as [null]. *)
Fixpoint is_json (v : value) : bool :=
  match v with
  | VUndefined => false
  | VNum NaN | VNum (Infinity _) => false
  | VArr items => forallb is_json items
  | VObj props => forallb (fun kv => is_json (snd kv)) props
  | _ => true
  end.

(* ================================================================== *)
(** ** The host *)
(* ================================================================== *)

(** What [fs.readFileSync] does on a path. *)
Inductive file_result : Type :=
| FileData (content : text)
| FileError (e : exn).

(** A header value: a string, or the byte length of a text
    ([Buffer.byteLength(body)]). *)
Inductive header_value : Type :=
| Literal (s : string)
| ByteLength (t : text).

(** One call of [https.request(options, ...)] followed by
    [req.write(body); req.end()]. *)
Record https_request : Type := mkRequest {
  hostname : string;
  port : Z;
  path : string;
  http_method : string;
  headers : list (string * header_value);
  written : text                           (* req.write(body) *)
}.

(** How an HTTPS request ends: the ['error'] event with the error of the
    transport, or the ['end'] event after the chunks of the response
    body. *)
Inductive remote_reply : Type :=
| NetError (e : exn)
| Reply (data : text).

(** The host.  A remote peer that never answers is left out: no timeout
    is set, and the listener then never responds. *)
Record host : Type := mkHost {
  env : string -> option string;           (* process.env *)
  readFileSync : string -> file_result;    (* fs.readFileSync *)
  https : https_request -> remote_reply;   (* the remote peer *)
  toISOString_now : string;                (* new Date().toISOString() *)
  dirname : string;                        (* __dirname *)
  Number_toString : number -> string       (* Number.prototype.toString *)
}.

(** [process.env.NAME]: a string or [undefined]. *)
Definition process_env (h : host) (name : string) : value :=
  match env h name with
  | Some s => VStr s
  | None => VUndefined
  end.

(* ================================================================== *)
(** ** Strings: [ToString], [parseInt], [split], [path] *)
(* ================================================================== *)

Fixpoint join (sep : string) (l : list string) : string :=
  match l with
  | [] => ""
  | [x] => x
  | x :: l' => x ++ sep ++ join sep l'
  end.

(** [ToString(v)] throws for an object that has a property [toString] of
    its own: in a parsed JSON object that property is no function, so
    neither it nor [valueOf] gives a primitive ("Cannot convert object to
    primitive value"); and for an array that holds such an object, whose
    elements [join] converts one by one. *)
Fixpoint cannot_convert (v : value) : bool :=
  match v with
  | VObj props => existsb (fun kv => (fst kv =? "toString")%string) props
  | VArr items => existsb cannot_convert items
  | _ => false
  end.

(** [ToString(v)], as template literals, [new Error(v)] and [parseInt(v)]
    apply it: the text it returns, when it returns one (see
    [cannot_convert]).  An array prints its elements joined by commas,
    [null] and [undefined] elements as nothing; a plain object prints as
    [[object Object]]. *)
Fixpoint ToString (h : host) (v : value) : string :=
  match v with
  | VUndefined => "undefined"
  | VNull => "null"
  | VBool true => "true"
  | VBool false => "false"
  | VNum n => Number_toString h n
  | VStr s => s
  | VArr items =>
      join ","
        (map (fun x => match x with
                       | VUndefined | VNull => ""
                       | _ => ToString h x
                       end) items)
  | VObj _ => "[object Object]"
  end.

(** [ToString(v)] with its throw. *)
Definition ToString_or_throw (h : host) (v : value) : result string :=
  if cannot_convert v then Throw (Error "Cannot convert object to primitive value")
  else Return (ToString h v).

(** [new Error(v)] for a [v] that is not [undefined]: the message is
    [ToString(v)], and the constructor throws when that throws. *)
Definition new_Error (h : host) (v : value) : result exn :=
  (text <- ToString_or_throw h v ;; Return (Error text))%js.

(** White space and line terminators that [parseInt] skips, in UTF-8:
    TAB, LF, VT, FF, CR, SP, U+00A0, U+1680, U+2000..U+200A, U+2028,
    U+2029, U+202F, U+205F, U+3000, U+FEFF. *)
Definition white1 (c : ascii) : bool :=
  let n := nat_of_ascii c in
  ((9 <=? n) && (n <=? 13) || (n =? 32))%nat.

Definition white2 (c1 c2 : ascii) : bool :=
  ((nat_of_ascii c1 =? 194) && (nat_of_ascii c2 =? 160))%nat.

Definition white3 (c1 c2 c3 : ascii) : bool :=
  let a := nat_of_ascii c1 in
  let b := nat_of_ascii c2 in
  let c := nat_of_ascii c3 in
  ((a =? 225) && (b =? 154) && (c =? 128)
   || (a =? 226) && (b =? 128)
      && ((128 <=? c) && (c <=? 138) || (c =? 168) || (c =? 169) || (c =? 175))
   || (a =? 226) && (b =? 129) && (c =? 159)
   || (a =? 227) && (b =? 128) && (c =? 128)
   || (a =? 239) && (b =? 187) && (c =? 191))%nat.

Fixpoint trim_start (s : string) : string :=
  match s with
  | String c1 r1 =>
      if white1 c1 then trim_start r1
      else
        match r1 with
        | String c2 r2 =>
            if white2 c1 c2 then trim_start r2
            else
              match r2 with
              | String c3 r3 => if white3 c1 c2 c3 then trim_start r3 else s
              | EmptyString => s
              end
        | EmptyString => s
        end
  | EmptyString => s
  end.

(** The value of a digit in radix up to 36. *)
Definition digit_value (c : ascii) : option Z :=
  let n := Z.of_nat (nat_of_ascii c) in
  if (48 <=? n) && (n <=? 57) then Some (n - 48)
  else if (97 <=? n) && (n <=? 122) then Some (n - 87)
  else if (65 <=? n) && (n <=? 90) then Some (n - 55)
  else None.

(** The integer written by the longest prefix of radix-[R] digits;
    [acc] is [None] until a digit has been read. *)
Fixpoint digits (R : Z) (s : string) (acc : option Z) : option Z :=
  match s with
  | String c rest =>
      match digit_value c with
      | Some d =>
          if d <? R
          then digits R rest (Some (match acc with Some a => a | None => 0 end * R + d))
          else acc
      | None => acc
      end
  | EmptyString => acc
  end.

(** The integer nearest to [z] that a double holds: [z] itself below
    [2^53]; beyond, the 53 leading bits of [z], rounded to nearest with
    ties to even. *)
Definition round_to_double (z : Z) : Z :=
  let a := Z.abs z in
  if a <? 2 ^ 53 then z
  else
    let shift := Z.log2 a - 52 in
    let q := Z.shiftr a shift in
    let r := a - Z.shiftl q shift in
    let half := 2 ^ (shift - 1) in
    let q' := if (half <? r) || ((r =? half) && Z.odd q) then q + 1 else q in
    Z.sgn z * Z.shiftl q' shift.

(** The double an integer becomes.  From [2^1024 - 2^970] on, rounding
    to nearest gives an infinity; below, the nearest double, which is
    zero only for zero. *)
Definition Number_of_integer (z : Z) : number :=
  if 2 ^ 1024 - 2 ^ 970 <=? Z.abs z then Infinity (z <? 0)
  else number_of_Z (round_to_double z).

(** [parseInt(string)] with no radix: skip white space, read a sign,
    read [0x]/[0X] as radix 16 and radix 10 otherwise, take the longest
    prefix of digits; [NaN] when there is none. *)
Definition parseInt (inputString : string) : number :=
  let S0 := trim_start inputString in
  let '(sign, S1) :=
    match S0 with
    | String "-" r => (-1, r)
    | String "+" r => (1, r)
    | _ => (1, S0)
    end in
  let '(R, S2) :=
    match S1 with
    | String "0" (String "x" r) => (16, r)
    | String "0" (String "X" r) => (16, r)
    | _ => (10, S1)
    end in
  match digits R S2 None with
  | None => NaN
  | Some mathInt => Number_of_integer (sign * mathInt)
  end.

(** [s.split('/')] for a one-character separator: the pieces between
    the separators, empty pieces included. *)
Fixpoint split (sep : ascii) (s : string) : list string :=
  match s with
  | EmptyString => [""]
  | String c rest =>
      if Ascii.eqb c sep then "" :: split sep rest
      else
        match split sep rest with
        | piece :: pieces => String c piece :: pieces
        | [] => [String c ""]
        end
  end.

(** The segments of a POSIX path, normalised: empty segments and [.]
    are dropped, [..] removes the segment before it, or stays when there
    is none to remove and the path is relative. *)
Fixpoint normalize_segments (allowAboveRoot : bool) (segs stack : list string)
  : list string :=
  match segs with
  | [] => rev stack
  | seg :: rest =>
      if (seg =? "")%string || (seg =? ".")%string
      then normalize_segments allowAboveRoot rest stack
      else if (seg =? "..")%string then
        match stack with
        | top :: below =>
            if (top =? "..")%string
            then normalize_segments allowAboveRoot rest
                   (if allowAboveRoot then ".." :: stack else stack)
            else normalize_segments allowAboveRoot rest below
        | [] =>
            normalize_segments allowAboveRoot rest
              (if allowAboveRoot then [".."] else [])
        end
      else normalize_segments allowAboveRoot rest (seg :: stack)
  end.

Fixpoint ends_with_slash (s : string) : bool :=
  match s with
  | EmptyString => false
  | String c EmptyString => Ascii.eqb c "/"
  | String _ rest => ends_with_slash rest
  end.

(** [path.normalize(p)] on a POSIX path. *)
Definition normalize (p : string) : string :=
  if (p =? "")%string then "."
  else
    let isAbsolute := match p with String c _ => Ascii.eqb c "/" | _ => false end in
    let trailingSeparator := ends_with_slash p in
    let body := join "/" (normalize_segments (negb isAbsolute) (split "/" p) []) in
    if (body =? "")%string
    then (if isAbsolute then "/" else if trailingSeparator then "./" else ".")
    else (if isAbsolute then "/" else "") ++ body
         ++ (if trailingSeparator then "/" else "").

(** [path.join(a, b)] on strings (POSIX): the arguments that are not
    empty, joined by a separator and normalised. *)
Definition path_join (a b : string) : string :=
  if (a =? "")%string then (if (b =? "")%string then "." else normalize b)
  else if (b =? "")%string then normalize a
  else normalize (a ++ "/" ++ b).

(** The [TypeError] of [path.join] on an argument that is not a string. *)
Definition ERR_INVALID_ARG_TYPE (received : string) : exn :=
  let quote := String (ascii_of_nat 34) "" in
  mkExn ("The " ++ quote ++ "path" ++ quote
         ++ " argument must be of type string. Received " ++ received)
        (Some "ERR_INVALID_ARG_TYPE").

(* ================================================================== *)
(** ** Credential resolution: [getApiKey] (lines 31-46) *)
(* ================================================================== *)

Definition service_key : string := "apiKey@https://ampcode.com/".
Definition generic_key : string := "apiKey".

(** [fs.readFileSync(p, 'utf-8')] *)
Definition readFile (h : host) (p : string) : result text :=
  match readFileSync h p with
  | FileData content => Return content
  | FileError e => Throw e
  end.

(** [process.env.HOME || process.env.USERPROFILE] *)
Definition home_dir (h : host) : value :=
  or_else (process_env h "HOME") (process_env h "USERPROFILE").

(** [path.join(home, '.local/share/amp/secrets.json')]: the call sits
    before the [try], and throws when [home] is [undefined]. *)
Definition secretsPath (h : host) : result string :=
  match home_dir h with
  | VStr home => Return (path_join home ".local/share/amp/secrets.json")
  | _ => Throw (ERR_INVALID_ARG_TYPE "undefined")
  end.

Definition getApiKey (h : host) : result value :=
  (p <- secretsPath h ;;
   try_catch
     (content <- readFile h p ;;
      secrets <- JSON_parse content ;;
      a <- Get secrets service_key ;;
      b <- Get secrets generic_key ;;
      Return (or_else (or_else a b) (process_env h "AMP_API_KEY")))
     (fun e => Return (process_env h "AMP_API_KEY")))%js.

(* ================================================================== *)
(** ** The remote-call adapter: [ampApiRequest] (lines 49-95) *)
(* ================================================================== *)

(** A computation that may issue HTTPS requests and may throw (an
    [async] function): the requests issued, in order, and the outcome. *)
Definition M (A : Type) : Type := list https_request * result A.

Definition lift {A} (r : result A) : M A := ([], r).

Definition mbind {A B} (m : M A) (k : A -> M B) : M B :=
  match m with
  | (tr, Return a) => let '(tr', r) := k a in ((tr ++ tr')%list, r)
  | (tr, Throw e) => (tr, Throw e)
  end.

Notation "x <~ m ;; k" := (mbind m (fun x => k))
  (at level 61, m at next level, right associativity) : js_scope.

(** [process.env.PORT || 3847] *)
Definition PORT (h : host) : value :=
  or_else (process_env h "PORT") (VNum (number_of_Z 3847)).

Definition AMP_API_HOST : string := "ampcode.com".

Definition no_api_key : string :=
  "No API key found. Please ensure ~/.local/share/amp/secrets.json exists".

(** The [options] of the request and the body written to it. *)
Definition remote_request (h : host) (apiKey : value) (method : string) (params : value)
  : https_request :=
  let body := JSON_stringify (VObj [("method", VStr method); ("params", params)]) in
  {| hostname := AMP_API_HOST;
     port := 443;
     path := "/api/internal?" ++ method;
     http_method := "POST";
     headers :=
       [("Content-Type", Literal "application/json");
        ("Content-Length", ByteLength body);
        ("Authorization", Literal ("Bearer " ++ ToString h apiKey));
        ("X-Amp-Client-Application", Literal "AmpTaskViewer");
        ("X-Amp-Client-Type", Literal "web");
        ("X-Amp-Client-Bundle", Literal "amp-task-management")];
     written := body |}.

(** The ['end'] callback of the response (lines 77-88): inside the [try]
    the promise is rejected or resolved; what the [try] itself throws
    (a SyntaxError of [JSON.parse], the TypeError of [parsed.ok] on
    [null], the TypeError of [new Error] on a message that cannot be
    turned into text) is caught and rejects with a fixed message. *)
Definition on_end (h : host) (data : text) : result value :=
  let settled : result (result value) :=
    (parsed <- JSON_parse data ;;
     ok <- Get parsed "ok" ;;
     if negb (ToBoolean ok) then
       error <- Get parsed "error" ;;
       failure <- new_Error h (or_else (GetOpt error "message")
                                       (VStr "API request failed")) ;;
       Return (Throw failure)
     else Return (Return parsed))%js in
  match settled with
  | Return outcome => outcome
  | Throw _ => Throw (Error "Invalid JSON response from API")
  end.

(** A character a header value may hold, as [https.request] checks it:
    a tab, a printable ASCII character, or a character from U+0080 to
    U+00FF (in UTF-8 the bytes 128 to 195). *)
Definition header_char (c : ascii) : bool :=
  let n := nat_of_ascii c in
  ((n =? 9) || (32 <=? n) && (n <=? 126) || (128 <=? n) && (n <=? 195))%nat.

Fixpoint header_safe (s : string) : bool :=
  match s with
  | EmptyString => true
  | String c rest => header_char c && header_safe rest
  end.

(** A key the [Authorization] header can carry: the template literal
    turns it into text, and [https.request] accepts that text. *)
Definition usable_key (h : host) (key : value) : bool :=
  negb (cannot_convert key) && header_safe ("Bearer " ++ ToString h key).

(** [ampApiRequest] for a key that is usable in the sense of
    [usable_key], as an API key is.  For another truthy key (an object
    with a [toString] of its own, a text with a line break) the template
    literal or [https.request] throws inside the executor, the promise
    is rejected with that error and nothing is sent: that path is not
    followed here. *)
Definition ampApiRequest (h : host) (method : string) (params : value) : M value :=
  match getApiKey h with
  | Throw e => ([], Throw e)
  | Return apiKey =>
      if negb (ToBoolean apiKey) then ([], Throw (Error no_api_key))
      else
        let req := remote_request h apiKey method params in
        ([req],
         match https h req with
         | NetError e => Throw e
         | Reply data => on_end h data
         end)
  end.

(* ================================================================== *)
(** ** The local request and [parseBody] (lines 98-111) *)
(* ================================================================== *)

(** How the body stream of the local request ends. *)
Inductive body_stream : Type :=
| BodyEnd (body : text)
| BodyError (e : exn).

(** An incoming request, its URL already parsed by [new URL(req.url, ...)]:
    [pathname] as the URL has it, [searchParams] the decoded query pairs
    in order. *)
Record request : Type := mkReq {
  req_method : string;
  pathname : string;
  searchParams : list (string * string);
  stream : body_stream
}.

Definition parseBody (req : request) : result value :=
  match stream req with
  | BodyError e => Throw e
  | BodyEnd body =>
      try_catch
        (if text_truthy body then JSON_parse body else Return (VObj []))
        (fun _ => Throw (Error "Invalid JSON in request body"))
  end.

(** [url.searchParams.get(name)]: the first value, or [null]. *)
Fixpoint searchParams_get (q : list (string * string)) (name : string) : value :=
  match q with
  | [] => VNull
  | (k, v) :: q' => if (k =? name)%string then VStr v else searchParams_get q' name
  end.

(* ================================================================== *)
(** ** Responses: [sendJson], [getMimeType] (lines 114-133) *)
(* ================================================================== *)

Inductive payload : Type :=
| NoBody                (* res.end() *)
| Text (t : text)       (* res.end(string) *)
| Plain (s : string).   (* res.end('literal') *)

Record response : Type := mkRes {
  status : Z;
  res_headers : list (string * string);
  sent : payload
}.

(** The three headers set on every response (lines 138-140). *)
Definition cors : list (string * string) :=
  [("Access-Control-Allow-Origin", "*");
   ("Access-Control-Allow-Methods", "GET, POST, PUT, DELETE, OPTIONS");
   ("Access-Control-Allow-Headers", "Content-Type, Authorization")].

Definition sendJson (data : value) (st : Z) : response :=
  {| status := st;
     res_headers := (cors ++ [("Content-Type", "application/json")])%list;
     sent := Text (JSON_stringify data) |}.

Definition lower (c : ascii) : ascii :=
  let n := nat_of_ascii c in
  if ((65 <=? n) && (n <=? 90))%nat then ascii_of_nat (n + 32) else c.

Fixpoint toLowerCase (s : string) : string :=
  match s with
  | EmptyString => EmptyString
  | String c r => String (lower c) (toLowerCase r)
  end.

(** The suffix of [s] from its last dot on, when that dot is not the
    first character. *)
Fixpoint from_last_dot (first : bool) (s : string) : option string :=
  match s with
  | EmptyString => None
  | String c r =>
      match from_last_dot false r with
      | Some ext => Some ext
      | None => if Ascii.eqb c "." && negb first then Some s else None
      end
  end.

(** [path.extname(p)]: the extension of the last segment of [p] that is
    not empty; none for a name that only starts with a dot and for
    [".."]. *)
Definition extname (p : string) : string :=
  match rev (filter (fun x => negb (x =? "")%string) (split "/" p)) with
  | base :: _ =>
      if (base =? "..")%string then ""
      else match from_last_dot true base with
           | Some ext => ext
           | None => ""
           end
  | [] => ""
  end.

Definition getMimeType (filePath : string) : string :=
  let ext := toLowerCase (extname filePath) in
  let types :=
    [(".html", "text/html");
     (".css", "text/css");
     (".js", "application/javascript");
     (".json", "application/json");
     (".png", "image/png");
     (".svg", "image/svg+xml");
     (".ico", "image/x-icon");
     (".md", "text/markdown")] in
  match find (fun kv => (fst kv =? ext)%string) types with
  | Some kv => snd kv
  | None => "text/plain"
  end.

(* ================================================================== *)
(** ** The routes (lines 136-259) *)
(* ================================================================== *)

(** [o.k = v] *)
Fixpoint set (k : string) (v : value) (o : object) : object :=
  match o with
  | [] => [(k, v)]
  | (k', v') :: o' =>
      if (k' =? k)%string then (k, v) :: o' else (k', v') :: set k v o'
  end.

(** [key => params[key] === undefined && delete params[key]] *)
Definition drop_if_undefined (params : object) (key : string) : object :=
  if is_undefined (prop params key) then delete key params else params.

(** [Object.keys(params).forEach(key => ...)] (lines 193-195, 216-218) *)
Definition remove_undefined (params : object) : object :=
  fold_left drop_if_undefined (keys params) params.

(** [url.pathname.split('/').filter(Boolean)] *)
Definition pathParts (req : request) : list string :=
  filter (fun x => negb (x =? "")%string) (split "/" (pathname req)).

(** [pathParts[i]] *)
Definition part (req : request) (i : nat) : value :=
  match nth_error (pathParts req) i with
  | Some s => VStr s
  | None => VUndefined
  end.

(** The params of [listTasks] (lines 158-166). *)
Definition listParams (h : host) (req : request) : object :=
  let q := searchParams req in
  let limit := or_else (VNum (parseInt (ToString h (searchParams_get q "limit"))))
                       (VNum (number_of_Z 100)) in
  let status := searchParams_get q "status" in
  let repoURL := searchParams_get q "repoURL" in
  let ready := is_string "true" (searchParams_get q "ready") in
  let params := [("limit", limit)] in
  let params := if ToBoolean status then set "status" status params else params in
  let params := if ToBoolean repoURL then set "repoURL" repoURL params else params in
  let params := if ready then set "ready" (VBool true) params else params in
  params.

(** The params of [createTask] (lines 183-195). *)
Definition createParams (body : value) : result object :=
  (title <- Get body "title" ;;
   description <- Get body "description" ;;
   status <- Get body "status" ;;
   repoURL <- Get body "repoURL" ;;
   dependsOn <- Get body "dependsOn" ;;
   parentID <- Get body "parentID" ;;
   Return (remove_undefined
             [("title", title);
              ("description", description);
              ("status", or_else status (VStr "open"));
              ("repoURL", repoURL);
              ("dependsOn", dependsOn);
              ("parentID", parentID)]))%js.

(** The params of [updateTask] (lines 205-218). *)
Definition updateParams (taskId : value) (body : value) : result object :=
  (title <- Get body "title" ;;
   description <- Get body "description" ;;
   status <- Get body "status" ;;
   repoURL <- Get body "repoURL" ;;
   dependsOn <- Get body "dependsOn" ;;
   parentID <- Get body "parentID" ;;
   Return (remove_undefined
             [("taskID", taskId);
              ("title", title);
              ("description", description);
              ("status", status);
              ("repoURL", repoURL);
              ("dependsOn", dependsOn);
              ("parentID", parentID)]))%js.

(** The five operations of the block marked "API Routes". *)
Inductive operation : Type := ListTasks | GetTask | CreateTask | UpdateTask | DeleteTask.

(** The routing tests of lines 153-226, in their order. *)
Definition route (req : request) : option operation :=
  if is_string "api" (part req 0) && is_string "tasks" (part req 1) then
    let taskId := part req 2 in
    let m := req_method req in
    if (m =? "GET")%string && negb (ToBoolean taskId) then Some ListTasks
    else if (m =? "GET")%string && ToBoolean taskId then Some GetTask
    else if (m =? "POST")%string && negb (ToBoolean taskId) then Some CreateTask
    else if (m =? "PUT")%string && ToBoolean taskId then Some UpdateTask
    else if (m =? "DELETE")%string && ToBoolean taskId then Some DeleteTask
    else None
  else None.

(** The body of each route. *)
Definition api (h : host) (req : request) (op : operation) : M response :=
  let taskId := part req 2 in
  match op with
  | ListTasks =>
      (data <~ ampApiRequest h "listTasks" (VObj (listParams h req)) ;;
       lift (Return (sendJson data 200)))%js
  | GetTask =>
      (data <~ ampApiRequest h "getTask" (VObj [("taskID", taskId)]) ;;
       lift (Return (sendJson data 200)))%js
  | CreateTask =>
      (body <~ lift (parseBody req) ;;
       params <~ lift (createParams body) ;;
       data <~ ampApiRequest h "createTask" (VObj params) ;;
       lift (Return (sendJson data 201)))%js
  | UpdateTask =>
      (body <~ lift (parseBody req) ;;
       params <~ lift (updateParams taskId body) ;;
       data <~ ampApiRequest h "updateTask" (VObj params) ;;
       lift (Return (sendJson data 200)))%js
  | DeleteTask =>
      (data <~ ampApiRequest h "deleteTask" (VObj [("taskID", taskId)]) ;;
       lift (Return (sendJson data 200)))%js
  end.

(** Static files (lines 240-253). *)
Definition static (h : host) (req : request) : result response :=
  let filePath :=
    path_join (dirname h)
      (if (pathname req =? "/")%string then "index.html" else pathname req) in
  match readFileSync h filePath with
  | FileData content =>
      Return {| status := 200;
                res_headers := (cors ++ [("Content-Type", getMimeType filePath)])%list;
                sent := Text content |}
  | FileError e =>
      if match code e with Some c => (c =? "ENOENT")%string | None => false end
      then Return {| status := 404;
                     res_headers := (cors ++ [("Content-Type", "text/plain")])%list;
                     sent := Plain "Not Found" |}
      else Throw e
  end.

(** The [try] block (lines 151-254). *)
Definition try_block (h : host) (req : request) : M response :=
  match route req with
  | Some op => api h req op
  | None =>
      if (pathname req =? "/api/health")%string
      then lift (Return (sendJson (VObj [("ok", VBool true);
                                         ("timestamp", VStr (toISOString_now h))]) 200))
      else lift (static h req)
  end.

(** The request listener: the requests it issued and its response. *)
Definition server (h : host) (req : request) : list https_request * response :=
  if (req_method req =? "OPTIONS")%string
  then ([], {| status := 204; res_headers := cors; sent := NoBody |})
  else
    match try_block h req with
    | (tr, Return res) => (tr, res)
    | (tr, Throw error) =>
        (tr, sendJson (VObj [("ok", VBool false); ("error", VStr (message error))]) 500)
    end.


(* ================================================================== *)
(** ** The routes, operation by operation *)
(* ================================================================== *)

(** The remote method of each operation. *)
Definition method_name (op : operation) : string :=
  match op with
  | ListTasks => "listTasks"
  | GetTask => "getTask"
  | CreateTask => "createTask"
  | UpdateTask => "updateTask"
  | DeleteTask => "deleteTask"
  end.

(** The status each route passes to [sendJson]. *)
Definition success_code (op : operation) : Z :=
  match op with
  | CreateTask => 201
  | _ => 200
  end.

(** The params each route hands to [ampApiRequest]; the routes that read
    the request body throw when it cannot be read. *)
Definition params_of (h : host) (req : request) (op : operation) : result object :=
  match op with
  | ListTasks => Return (listParams h req)
  | GetTask | DeleteTask => Return [("taskID", part req 2)]
  | CreateTask => (body <- parseBody req ;; createParams body)%js
  | UpdateTask => (body <- parseBody req ;; updateParams (part req 2) body)%js
  end.

(** The fields of a task that create and update copy from the body. *)
Definition fields : list string :=
  ["title"; "description"; "status"; "repoURL"; "dependsOn"; "parentID"].

(** [body[k]] of the local request, [undefined] when there is no body to
    read it from. *)
Definition body_field (req : request) (k : string) : value :=
  match (body <- parseBody req ;; Get body k)%js with
  | Return v => v
  | Throw _ => VUndefined
  end.

(** The local request gives [k] a defined value: a query parameter for
    the list, a property of the body for create and update, the path
    identifier for [taskID]. *)
Definition supplied (req : request) (op : operation) (k : string) : bool :=
  match op with
  | ListTasks =>
      match searchParams_get (searchParams req) k with VNull => false | _ => true end
  | CreateTask => negb (is_undefined (body_field req k))
  | UpdateTask =>
      if (k =? "taskID")%string then negb (is_undefined (part req 2))
      else negb (is_undefined (body_field req k))
  | GetTask | DeleteTask => (k =? "taskID")%string && negb (is_undefined (part req 2))
  end.

(** The envelope [{ok: false, error: msg}] of the central [catch]. *)
Definition error_body (msg : string) : value :=
  VObj [("ok", VBool false); ("error", VStr msg)].


Definition set_searchParams (req : request) (q : list (string * string)) : request :=
  {| req_method := req_method req;
     pathname := pathname req;
     searchParams := q;
     stream := stream req |}.

(** The secrets file as [getApiKey] sees it: [secrets[k]], [undefined]
    when the file cannot be read or parsed or holds [null]. *)
Definition file_key (h : host) (p : string) (k : string) : value :=
  match (content <- readFile h p ;; secrets <- JSON_parse content ;; Get secrets k)%js with
  | Return v => v
  | Throw _ => VUndefined
  end.

(* ================================================================== *)
(** ** Sample hosts and requests *)
(* ================================================================== *)

(** A number printer for the sample hosts: right on the integers below
    [10^21] and on the numbers that are not finite, which is all the
    samples hold. *)
Definition print_integer (n : number) : string :=
  match n with
  | NaN => "NaN"
  | Infinity false => "Infinity"
  | Infinity true => "-Infinity"
  | Finite q => NilZero.string_of_int (Z.to_int (Qnum q / Zpos (Qden q)))
  end.

Definition ENOENT : exn :=
  mkExn "ENOENT: no such file or directory" (Some "ENOENT").

Definition sample_secrets_path : string := "/home/amp/.local/share/amp/secrets.json".

(** A host whose home directory holds [secrets] as its secrets file and
    nothing else, whose environment holds [HOME] and, when [override] is
    given, [AMP_API_KEY], and whose remote peer answers [reply] to every
    request. *)
Definition sample_host (secrets : file_result) (override : option string)
    (reply : remote_reply) : host :=
  {| env := fun name =>
       if (name =? "HOME")%string then Some "/home/amp"
       else if (name =? "AMP_API_KEY")%string then override
       else None;
     readFileSync := fun p =>
       if (p =? sample_secrets_path)%string then secrets else FileError ENOENT;
     https := fun _ => reply;
     toISOString_now := "2026-01-01T00:00:00.000Z";
     dirname := "/srv/amp-task-management";
     Number_toString := print_integer |}.

Definition ok_envelope : value :=
  VObj [("ok", VBool true); ("data", VObj [("id", VStr "85"); ("title", VStr "t")])].

(** A host with the generic key in its secrets file, whose remote peer
    answers [reply]. *)
Definition host_replying (reply : remote_reply) : host :=
  sample_host (FileData (Json (VObj [(generic_key, VStr "secret")]))) None reply.

(** The same, with a remote peer that reports success. *)
Definition host_with_key : host := host_replying (Reply (Json ok_envelope)).

(** The envelopes [{ok: false, error: {message: msg}}]. *)
Definition failure_envelope (msg : value) : value :=
  VObj [("ok", VBool false); ("error", VObj [("message", msg)])].

(** A host whose secrets file holds an empty service-qualified key and
    a generic key. *)
Definition host_with_empty_service_key : host :=
  sample_host
    (FileData (Json (VObj [(service_key, VStr ""); (generic_key, VStr "generic")])))
    None (Reply (Json ok_envelope)).

(** A host without [HOME] and [USERPROFILE], with the override set. *)
Definition host_without_home : host :=
  {| env := fun name => if (name =? "AMP_API_KEY")%string then Some "override" else None;
     readFileSync := fun _ => FileError ENOENT;
     https := fun _ => Reply (Json ok_envelope);
     toISOString_now := "2026-01-01T00:00:00.000Z";
     dirname := "/srv/amp-task-management";
     Number_toString := print_integer |}.

(** A host with no secrets file and no override. *)
Definition host_without_credential : host :=
  sample_host (FileError ENOENT) None (Reply (Json ok_envelope)).

(** [GET /api/tasks] *)
Definition get_tasks (q : list (string * string)) : request :=
  {| req_method := "GET"; pathname := "/api/tasks"; searchParams := q;
     stream := BodyEnd Empty |}.

(** [POST /api/tasks] with the given body. *)
Definition post_tasks (body : text) : request :=
  {| req_method := "POST"; pathname := "/api/tasks"; searchParams := [];
     stream := BodyEnd body |}.

(** The body [{"title":"t"}]. *)
Definition title_t : value := VObj [("title", VStr "t")].

(** The object literals of lines 183-190 and 205-213, before the
    [undefined] values are removed, for a body that is not [null]. *)
Definition create_literal (body : value) : object :=
  [("title", GetOpt body "title");
   ("description", GetOpt body "description");
   ("status", or_else (GetOpt body "status") (VStr "open"));
   ("repoURL", GetOpt body "repoURL");
   ("dependsOn", GetOpt body "dependsOn");
   ("parentID", GetOpt body "parentID")].

Definition update_literal (taskId body : value) : object :=
  [("taskID", taskId);
   ("title", GetOpt body "title");
   ("description", GetOpt body "description");
   ("status", GetOpt body "status");
   ("repoURL", GetOpt body "repoURL");
   ("dependsOn", GetOpt body "dependsOn");
   ("parentID", GetOpt body "parentID")].

(** [null] or [undefined] *)
Definition nullish (v : value) : bool :=
  match v with VUndefined | VNull => true | _ => false end.

(** What is left of a property when the [undefined] ones are removed. *)
Definition kept (x : option value) : option value :=
  match x with
  | Some v => if is_undefined v then None else Some v
  | None => None
  end.

(* ================================================================== *)
(** ** Requests that differ in one part, and more samples *)
(* ================================================================== *)

Definition set_stream (req : request) (st : body_stream) : request :=
  {| req_method := req_method req;
     pathname := pathname req;
     searchParams := searchParams req;
     stream := st |}.

Definition set_pathname (req : request) (p : string) : request :=
  {| req_method := req_method req;
     pathname := p;
     searchParams := searchParams req;
     stream := stream req |}.

(** The file the static branch reads (line 240). *)
Definition filePath (h : host) (req : request) : string :=
  path_join (dirname h)
    (if (pathname req =? "/")%string then "index.html" else pathname req).

(** The values of the table of [getMimeType], and its default. *)
Definition mime_types : list string :=
  ["text/html"; "text/css"; "application/javascript"; "application/json";
   "image/png"; "image/svg+xml"; "image/x-icon"; "text/markdown"; "text/plain"].

(** The status codes the listener writes. *)
Definition status_codes : list Z := [200; 201; 204; 404; 500].

(** The header [name] of an outbound request. *)
Fixpoint header (name : string) (hs : list (string * header_value)) : option header_value :=
  match hs with
  | [] => None
  | (k, v) :: hs' => if (k =? name)%string then Some v else header name hs'
  end.

(** A request with a method and a path, no query and an empty body. *)
Definition plain_request (m p : string) : request :=
  {| req_method := m; pathname := p; searchParams := []; stream := BodyEnd Empty |}.

(** A host whose files are all missing but the secrets file, which
    holds [secrets]. *)
Definition host_with_secrets (secrets : text) : host :=
  sample_host (FileData secrets) (Some "override") (Reply (Json ok_envelope)).

(** A host that serves one static file besides its secrets. *)
Definition host_with_file (name : string) (file : file_result) : host :=
  {| env := env host_with_key;
     readFileSync := fun p =>
       if (p =? path_join "/srv/amp-task-management" name)%string then file
       else readFileSync host_with_key p;
     https := https host_with_key;
     toISOString_now := toISOString_now host_with_key;
     dirname := "/srv/amp-task-management";
     Number_toString := print_integer |}.

Definition EACCES : exn := mkExn "EACCES: permission denied" (Some "EACCES").

(** [DELETE /api/tasks/85] and [GET /api/tasks/85]. *)
Definition delete_task_85 : request := plain_request "DELETE" "/api/tasks/85".
Definition get_task_85 : request := plain_request "GET" "/api/tasks/85".

(** A body with a title, and with properties that are no task fields. *)
Definition body_with_more : value :=
  VObj [("title", VStr "t"); ("id", VStr "99"); ("taskID", VStr "1");
        ("deletedAt", VNull)].

(** An envelope that reports success and holds a number that overflowed
    on parsing (the text [1e400]). *)
Definition overflow_envelope : value :=
  VObj [("ok", VBool true); ("data", VNum (Infinity false))].
(* ================================================================== *)
(** * Properties *)
(* ================================================================== *)

(** ** Objects *)

Lemma lookup_None_iff (k : string) (o : object) :
  lookup k o = None <-> ~ In k (keys o).
Proof.
  induction o as [|[k' v] o IH]; simpl.
  - tauto.
  - destruct (String.eqb_spec k' k) as [->|Hne].
    + split; [discriminate | intros H; exfalso; apply H; now left].
    + rewrite IH. split; intros H; [intros [E|E]; [now apply Hne | now apply H] | tauto].
Qed.

Lemma lookup_Some_In (k : string) (o : object) (v : value) :
  lookup k o = Some v -> In k (keys o).
Proof.
  intros H. destruct (in_dec string_dec k (keys o)) as [Hin|Hout]; [assumption|].
  apply lookup_None_iff in Hout. congruence.
Qed.

Lemma In_keys_lookup (k : string) (o : object) :
  In k (keys o) -> exists v, lookup k o = Some v.
Proof.
  intros Hin. destruct (lookup k o) as [v|] eqn:E; [now exists v|].
  apply lookup_None_iff in E. contradiction.
Qed.

Lemma keys_filter_incl (f : string * value -> bool) (o : object) (k : string) :
  In k (keys (filter f o)) -> In k (keys o).
Proof.
  unfold keys. rewrite !in_map_iff. intros [kv [E Hin]].
  apply filter_In in Hin. exists kv. tauto.
Qed.

Lemma NoDup_keys_filter (f : string * value -> bool) (o : object) :
  NoDup (keys o) -> NoDup (keys (filter f o)).
Proof.
  induction o as [|[k v] o IH]; simpl; intros H; [constructor|].
  inversion H as [|? ? Hout Hnd]; subst.
  destruct (f (k, v)); simpl; [constructor|]; auto.
  intros Hin. apply Hout. eapply keys_filter_incl, Hin.
Qed.

Lemma filter_true {A} (f : A -> bool) (l : list A) :
  (forall x, In x l -> f x = true) -> filter f l = l.
Proof.
  induction l as [|a l IH]; simpl; intros H; [reflexivity|].
  rewrite (H a) by now left. f_equal. apply IH. intros x Hx. apply H. now right.
Qed.

Lemma filter_filter {A} (f g : A -> bool) (l : list A) :
  filter g (filter f l) = filter (fun x => f x && g x) l.
Proof.
  induction l as [|a l IH]; simpl; [reflexivity|].
  destruct (f a); simpl; [destruct (g a)|]; now rewrite IH.
Qed.

Lemma drop_if_undefined_filter (o : object) (k : string) :
  NoDup (keys o) ->
  drop_if_undefined o k =
  filter (fun kv => negb ((fst kv =? k)%string && is_undefined (snd kv))) o.
Proof.
  unfold drop_if_undefined, delete, prop.
  induction o as [|[k' v] o IH]; simpl; intros Hnd; [reflexivity|].
  inversion Hnd as [|? ? Hout Hnd']; subst.
  destruct (String.eqb_spec k' k) as [->|Hne]; simpl.
  - assert (Hid : forall f : string * value -> bool,
               (forall kv, fst kv <> k -> f kv = true) -> filter f o = o).
    { intros f Hf. apply filter_true. intros [k1 v1] Hin. apply Hf. simpl.
      intros ->. apply Hout. change k with (fst (k, v1)). now apply in_map. }
    destruct (is_undefined v); simpl.
    + rewrite !Hid; [reflexivity| |]; intros kv Hkv;
        destruct (String.eqb_spec (fst kv) k); simpl; congruence.
    + rewrite Hid; [reflexivity|]. intros kv Hkv.
      destruct (String.eqb_spec (fst kv) k); simpl; congruence.
  - specialize (IH Hnd').
    destruct (lookup k o) as [x|]; simpl in *.
    + destruct (is_undefined x); simpl in *; [now rewrite IH | now rewrite <- IH].
    + now rewrite <- IH.
Qed.

Lemma fold_drop_filter (ks : list string) (o : object) :
  NoDup (keys o) ->
  fold_left drop_if_undefined ks o =
  filter (fun kv => negb (existsb (String.eqb (fst kv)) ks && is_undefined (snd kv))) o.
Proof.
  revert o. induction ks as [|k ks IH]; simpl; intros o Hnd.
  - symmetry. now apply filter_true.
  - rewrite drop_if_undefined_filter by assumption.
    rewrite IH by now apply NoDup_keys_filter.
    rewrite filter_filter. apply filter_ext. intros [k1 v1]; simpl.
    destruct (k1 =? k)%string, (existsb (String.eqb k1) ks), (is_undefined v1); reflexivity.
Qed.

(** The [forEach] keeps exactly the properties whose value is not
    [undefined], in their order. *)
Lemma remove_undefined_filter (o : object) :
  NoDup (keys o) ->
  remove_undefined o = filter (fun kv => negb (is_undefined (snd kv))) o.
Proof.
  intros Hnd. unfold remove_undefined.
  rewrite fold_drop_filter by assumption.
  apply filter_ext_in. intros [k v] Hin; simpl.
  replace (existsb (String.eqb k) (keys o)) with true; [reflexivity|].
  symmetry. apply existsb_exists. exists k. split; [|apply String.eqb_refl].
  change k with (fst (k, v)). now apply in_map.
Qed.

Lemma lookup_filter_defined (k : string) (o : object) :
  NoDup (keys o) ->
  lookup k (filter (fun kv => negb (is_undefined (snd kv))) o) =
  match lookup k o with
  | Some v => if is_undefined v then None else Some v
  | None => None
  end.
Proof.
  induction o as [|[k' v] o IH]; simpl; intros Hnd; [reflexivity|].
  inversion Hnd as [|? ? Hout Hnd']; subst.
  destruct (String.eqb_spec k' k) as [->|Hne].
  - destruct (is_undefined v) eqn:E; simpl.
    + apply lookup_None_iff. intros Hin. apply Hout. eapply keys_filter_incl, Hin.
    + now rewrite String.eqb_refl.
  - destruct (is_undefined v); simpl; [|destruct (String.eqb_spec k' k); [contradiction|]];
      now apply IH.
Qed.

(** What a property of the stripped object is. *)
Lemma lookup_remove_undefined (k : string) (o : object) :
  NoDup (keys o) ->
  lookup k (remove_undefined o) =
  match lookup k o with
  | Some v => if is_undefined v then None else Some v
  | None => None
  end.
Proof.
  intros Hnd. rewrite remove_undefined_filter by assumption.
  now apply lookup_filter_defined.
Qed.

(** ** Serialisation *)

Lemma jsonify_VObj (props : object) :
  jsonify (VObj props) = VObj (jsonify_props props).
Proof.
  reflexivity.
Qed.

(** Serialising what [JSON.parse] returned gives back the same value. *)
Lemma jsonify_is_json (v : value) : is_json v = true -> jsonify v = v.
Proof.
  induction v as [| | | n | |items IH|props IH] using value_ind'; intros H;
    try reflexivity; try discriminate.
  - destruct n; [discriminate..|reflexivity].
  - simpl in *. f_equal.
    induction IH as [|x l Hx _ IHl]; simpl in *; [reflexivity|].
    apply andb_prop in H as [H1 H2]. now rewrite Hx, IHl.
  - rewrite jsonify_VObj. f_equal. simpl in H.
    induction IH as [|[k x] l Hx _ IHl]; simpl in *; [reflexivity|].
    apply andb_prop in H as [H1 H2].
    rewrite (Hx H1), (IHl H2). now destruct x.
Qed.

Lemma JSON_stringify_is_json (v : value) :
  is_json v = true -> JSON_stringify v = Json v.
Proof.
  intros H. unfold JSON_stringify. rewrite (jsonify_is_json v H).
  destruct v; [discriminate|reflexivity..].
Qed.

(** ** The monad of the routes *)

Lemma mbind_lift_Return {A B} (a : A) (k : A -> M B) :
  mbind (lift (Return a)) k = k a.
Proof. unfold mbind, lift. now destruct (k a). Qed.

Lemma mbind_lift_Throw {A B} (e : exn) (k : A -> M B) :
  mbind (lift (Throw e)) k = ([], Throw e).
Proof. reflexivity. Qed.

(** Every route builds its params, calls the remote once through
    [ampApiRequest] and wraps the answer with its status code. *)
Lemma api_shape (h : host) (req : request) (op : operation) :
  api h req op =
  (params <~ lift (params_of h req op) ;;
   data <~ ampApiRequest h (method_name op) (VObj params) ;;
   lift (Return (sendJson data (success_code op))))%js.
Proof.
  destruct op; simpl params_of; cbv beta; rewrite ?mbind_lift_Return; try reflexivity.
  - unfold api. destruct (parseBody req) as [body|e]; simpl rbind;
      rewrite ?mbind_lift_Return, ?mbind_lift_Throw; reflexivity.
  - unfold api. destruct (parseBody req) as [body|e]; simpl rbind;
      rewrite ?mbind_lift_Return, ?mbind_lift_Throw; reflexivity.
Qed.

(** The three ways [ampApiRequest] goes. *)
Lemma ampApiRequest_no_key (h : host) (method : string) (params k : value) :
  getApiKey h = Return k -> ToBoolean k = false ->
  ampApiRequest h method params = ([], Throw (Error no_api_key)).
Proof. intros Hk Hf. unfold ampApiRequest. now rewrite Hk, Hf. Qed.

Lemma ampApiRequest_key (h : host) (method : string) (params k : value) :
  getApiKey h = Return k -> ToBoolean k = true ->
  ampApiRequest h method params =
  ([remote_request h k method params],
   match https h (remote_request h k method params) with
   | NetError e => Throw e
   | Reply data => on_end h data
   end).
Proof. intros Hk Ht. unfold ampApiRequest. now rewrite Hk, Ht. Qed.

Lemma ampApiRequest_throws (h : host) (method : string) (params : value) (e : exn) :
  getApiKey h = Throw e ->
  ampApiRequest h method params = ([], Throw e).
Proof. intros Hk. unfold ampApiRequest. now rewrite Hk. Qed.

(** At most one request is issued, and it is the one [remote_request]
    builds from a truthy key. *)
Lemma ampApiRequest_requests (h : host) (method : string) (params : value) :
  fst (ampApiRequest h method params) = [] \/
  exists k, getApiKey h = Return k /\ ToBoolean k = true /\
            fst (ampApiRequest h method params) = [remote_request h k method params].
Proof.
  unfold ampApiRequest. destruct (getApiKey h) as [k|e]; [|now left].
  destruct (ToBoolean k) eqn:Ht; simpl; [right; now exists k | now left].
Qed.

(** The outcome of a route whose params were built. *)
Lemma api_with_params (h : host) (req : request) (op : operation) (params : object) :
  params_of h req op = Return params ->
  api h req op =
  (fst (ampApiRequest h (method_name op) (VObj params)),
   match snd (ampApiRequest h (method_name op) (VObj params)) with
   | Return data => Return (sendJson data (success_code op))
   | Throw e => Throw e
   end).
Proof.
  intros Hp. rewrite api_shape, Hp, mbind_lift_Return.
  destruct (ampApiRequest h (method_name op) (VObj params)) as [tr [data|e]]; simpl;
    [now rewrite app_nil_r | reflexivity].
Qed.

(** A route whose params could not be built issues nothing. *)
Lemma api_without_params (h : host) (req : request) (op : operation) (e : exn) :
  params_of h req op = Throw e -> api h req op = ([], Throw e).
Proof. intros Hp. now rewrite api_shape, Hp. Qed.

(** ** The request listener *)

Lemma route_not_OPTIONS (req : request) (op : operation) :
  route req = Some op -> (req_method req =? "OPTIONS")%string = false.
Proof.
  unfold route. destruct (_ && _); [|discriminate].
  destruct (String.eqb_spec (req_method req) "OPTIONS") as [E|]; [|reflexivity].
  rewrite E. simpl. discriminate.
Qed.

Lemma server_routed (h : host) (req : request) (op : operation) :
  route req = Some op ->
  server h req =
  match api h req op with
  | (tr, Return res) => (tr, res)
  | (tr, Throw error) => (tr, sendJson (error_body (message error)) 500)
  end.
Proof.
  intros Hr. unfold server, try_block. now rewrite (route_not_OPTIONS req op Hr), Hr.
Qed.

(** The requests a routed call issues are those of its [ampApiRequest]. *)
Lemma server_requests (h : host) (req : request) (op : operation) (r : https_request) :
  route req = Some op -> In r (fst (server h req)) ->
  exists params k,
    params_of h req op = Return params /\
    getApiKey h = Return k /\ ToBoolean k = true /\
    fst (server h req) = [r] /\
    r = remote_request h k (method_name op) (VObj params).
Proof.
  intros Hr Hin. rewrite (server_routed h req op Hr) in *.
  destruct (params_of h req op) as [params|e] eqn:Hp.
  - rewrite (api_with_params h req op params Hp) in *.
    assert (Hfst : forall (a : list https_request) (b : result response),
               fst (match (a, b) with
                    | (tr, Return res) => (tr, res)
                    | (tr, Throw error) => (tr, sendJson (error_body (message error)) 500)
                    end) = a) by (intros a [x|x]; reflexivity).
    rewrite Hfst in *.
    destruct (ampApiRequest_requests h (method_name op) (VObj params)) as [E|[k [Hk [Ht E]]]];
      rewrite E in Hin; [contradiction|].
    destruct Hin as [<-|[]]. exists params, k. repeat split; assumption.
  - rewrite (api_without_params h req op e Hp) in Hin. contradiction.
Qed.

(** ** [parseInt] and the query *)

#[local] Arguments String.eqb : simpl never.

Lemma is_string_spec (lit : string) (v : value) :
  is_string lit v = true <-> v = VStr lit.
Proof.
  destruct v; simpl; try (split; [discriminate | intros H; discriminate H]).
  destruct (String.eqb_spec s lit) as [->|Hne]; split; try reflexivity; try discriminate.
  intros H. inversion H. contradiction.
Qed.

(** [parseInt] returns [NaN], an infinity or an integer. *)
Lemma parseInt_cases (s : string) :
  parseInt s = NaN \/ (exists b, parseInt s = Infinity b) \/
  (exists z, parseInt s = number_of_Z z).
Proof.
  unfold parseInt.
  repeat match goal with
         | |- context [let '(_, _) := ?e in _] => destruct e
         end.
  destruct (digits _ _ _) as [m|]; [|now left].
  right. unfold Number_of_integer. destruct (_ <=? _); [left|right]; eauto.
Qed.

Lemma number_of_Z_inj (a b : Z) : number_of_Z a = number_of_Z b -> a = b.
Proof. unfold number_of_Z, inject_Z. intros H. now inversion H. Qed.

(** A result of [parseInt] is falsy exactly when it is [NaN] or zero. *)
Lemma parseInt_falsy (s : string) :
  number_truthy (parseInt s) = false <->
  parseInt s = NaN \/ parseInt s = number_of_Z 0.
Proof.
  destruct (parseInt_cases s) as [E|[[b E]|[z E]]]; rewrite E; simpl.
  - split; [now left | reflexivity].
  - split; [discriminate | intros [H|H]; discriminate H].
  - destruct (Z.eqb_spec z 0) as [->|Hne]; simpl.
    + split; [now right | reflexivity].
    + split; [discriminate | intros [H|H]; [discriminate H|]].
      apply number_of_Z_inj in H. contradiction.
Qed.


(** The [limit] entry comes first and is never overwritten. *)
Lemma lookup_limit (h : host) (req : request) :
  lookup "limit" (listParams h req) =
  Some (or_else (VNum (parseInt (ToString h (searchParams_get (searchParams req) "limit"))))
                (VNum (number_of_Z 100))).
Proof.
  unfold listParams.
  destruct (ToBoolean (searchParams_get (searchParams req) "status")),
           (ToBoolean (searchParams_get (searchParams req) "repoURL")),
           (is_string "true" (searchParams_get (searchParams req) "ready")); reflexivity.
Qed.

Lemma lookup_ready (h : host) (req : request) :
  lookup "ready" (listParams h req) =
  if is_string "true" (searchParams_get (searchParams req) "ready")
  then Some (VBool true) else None.
Proof.
  unfold listParams.
  destruct (ToBoolean (searchParams_get (searchParams req) "status")),
           (ToBoolean (searchParams_get (searchParams req) "repoURL")),
           (is_string "true" (searchParams_get (searchParams req) "ready")); reflexivity.
Qed.


(** ** The params of create and update *)

Lemma lookup_In (k : string) (v : value) (o : object) :
  lookup k o = Some v -> In (k, v) o.
Proof.
  induction o as [|[k' v'] o IH]; simpl; [discriminate|].
  destruct (String.eqb_spec k' k) as [E|Hne]; intros H.
  - inversion H. subst. now left.
  - right. now apply IH.
Qed.

Lemma Get_nullish (body : value) (k : string) :
  nullish body = false -> Get body k = Return (GetOpt body k).
Proof. destruct body; simpl; intros H; try reflexivity; discriminate. Qed.

Lemma createParams_nullish (body : value) :
  nullish body = false ->
  createParams body = Return (remove_undefined (create_literal body)).
Proof.
  intros H. unfold createParams. rewrite !(Get_nullish body _ H). reflexivity.
Qed.

Lemma createParams_Return (body : value) (params : object) :
  createParams body = Return params ->
  nullish body = false /\ params = remove_undefined (create_literal body).
Proof.
  destruct (nullish body) eqn:E.
  - destruct body; discriminate.
  - rewrite (createParams_nullish body E). intros H. inversion H. now split.
Qed.

Lemma updateParams_nullish (taskId body : value) :
  nullish body = false ->
  updateParams taskId body = Return (remove_undefined (update_literal taskId body)).
Proof.
  intros H. unfold updateParams. rewrite !(Get_nullish body _ H). reflexivity.
Qed.

Lemma updateParams_Return (taskId body : value) (params : object) :
  updateParams taskId body = Return params ->
  nullish body = false /\ params = remove_undefined (update_literal taskId body).
Proof.
  destruct (nullish body) eqn:E.
  - destruct body; discriminate.
  - rewrite (updateParams_nullish taskId body E). intros H. inversion H. now split.
Qed.

Ltac distinct_keys :=
  repeat (constructor; [simpl; intuition discriminate|]); constructor.

Lemma NoDup_create_literal (body : value) : NoDup (keys (create_literal body)).
Proof. unfold create_literal, keys. simpl map. distinct_keys. Qed.

Lemma NoDup_update_literal (taskId body : value) :
  NoDup (keys (update_literal taskId body)).
Proof. unfold update_literal, keys. simpl map. distinct_keys. Qed.

(** A property of the params of create is the property of the literal,
    unless that is [undefined]. *)
Lemma lookup_createParams (body : value) (params : object) (k : string) :
  createParams body = Return params ->
  lookup k params = kept (lookup k (create_literal body)).
Proof.
  intros H. apply createParams_Return in H as [_ ->].
  apply lookup_remove_undefined, NoDup_create_literal.
Qed.

Lemma lookup_updateParams (taskId body : value) (params : object) (k : string) :
  updateParams taskId body = Return params ->
  lookup k params = kept (lookup k (update_literal taskId body)).
Proof.
  intros H. apply updateParams_Return in H as [_ ->].
  apply lookup_remove_undefined, NoDup_update_literal.
Qed.

Lemma kept_Some (x : option value) (v : value) :
  kept x = Some v -> x = Some v /\ is_undefined v = false.
Proof.
  destruct x as [w|]; simpl; [|discriminate].
  destruct (is_undefined w) eqn:E; [discriminate|].
  intros H. inversion H. subst. now split.
Qed.

(** With a body that was read, [body[k]] is what [body_field] says. *)
Lemma body_field_parsed (req : request) (body : value) (k : string) :
  parseBody req = Return body -> nullish body = false ->
  body_field req k = GetOpt body k.
Proof.
  intros Hb Hn. unfold body_field. rewrite Hb. simpl rbind.
  now rewrite (Get_nullish body k Hn).
Qed.

(** A route with a task identifier has one. *)
Lemma route_taskId (req : request) (op : operation) :
  route req = Some op -> op <> ListTasks -> op <> CreateTask ->
  ToBoolean (part req 2) = true.
Proof.
  unfold route. destruct (_ && _); [|discriminate].
  destruct (ToBoolean (part req 2)); [reflexivity|].
  rewrite !andb_false_r. simpl negb. rewrite !andb_true_r.
  destruct (req_method req =? "GET")%string; [intros H; inversion H; congruence|].
  destruct (req_method req =? "POST")%string; [intros H; inversion H; congruence|].
  discriminate.
Qed.

(** The keys of the params of the list, and when each is there. *)
Lemma listParams_keys (h : host) (req : request) (k : string) :
  In k (keys (listParams h req)) ->
  k = "limit" \/
  (k <> "limit" /\ ToBoolean (searchParams_get (searchParams req) k) = true).
Proof.
  unfold listParams.
  destruct (ToBoolean (searchParams_get (searchParams req) "status")) eqn:Es,
           (ToBoolean (searchParams_get (searchParams req) "repoURL")) eqn:Er,
           (is_string "true" (searchParams_get (searchParams req) "ready")) eqn:Ey;
    try (apply is_string_spec in Ey);
    simpl; intros H;
    repeat match goal with
           | H : _ \/ _ |- _ => destruct H as [H|H]
           | H : False |- _ => destruct H
           end; subst k; try (now left);
    right; (split; [discriminate|]); try assumption; now rewrite Ey.
Qed.

(** ** The answer of the remote *)

(** A parsed answer whose [ok] is falsy (an envelope, or any value
    but [null]) rejects with its message, or with the fixed one when it
    has none that is truthy; and with the message of the [catch] when
    the message cannot be turned into text. *)
Lemma on_end_failure (h : host) (parsed : value) :
  nullish parsed = false -> ToBoolean (GetOpt parsed "ok") = false ->
  on_end h (Json parsed)
  = Throw (Error
      (let m := or_else (GetOpt (GetOpt parsed "error") "message")
                        (VStr "API request failed") in
       if cannot_convert m then "Invalid JSON response from API" else ToString h m)).
Proof.
  intros Hn H. unfold on_end. simpl JSON_parse. simpl rbind.
  rewrite !(Get_nullish parsed _ Hn). simpl rbind. rewrite H. simpl negb. cbv iota.
  unfold new_Error, ToString_or_throw.
  destruct (cannot_convert _); reflexivity.
Qed.

(** An envelope whose [ok] is truthy is returned as it is. *)
Lemma on_end_success (h : host) (envelope : value) :
  ToBoolean (GetOpt envelope "ok") = true ->
  on_end h (Json envelope) = Return envelope.
Proof.
  destruct envelope; simpl; try discriminate.
  intros H. unfold on_end. simpl. now rewrite H.
Qed.


(** Why the ['end'] callback rejects: the fixed message of the [catch],
    or the message of a parsed answer whose [ok] is falsy. *)
Lemma on_end_error_kinds (h : host) (data : text) (e : exn) :
  on_end h data = Throw e ->
  e = Error "Invalid JSON response from API" \/
  exists parsed,
    data = Json parsed /\ nullish parsed = false /\
    ToBoolean (GetOpt parsed "ok") = false /\
    e = Error (ToString h (or_else (GetOpt (GetOpt parsed "error") "message")
                                   (VStr "API request failed"))).
Proof.
  destruct data as [| |v]; try (intros H; inversion H; now left).
  destruct (nullish v) eqn:Hn.
  - destruct v; try discriminate; intros H; inversion H; now left.
  - destruct (ToBoolean (GetOpt v "ok")) eqn:Hok.
    + rewrite (on_end_success h v Hok). discriminate.
    + rewrite (on_end_failure h v Hn Hok). cbv zeta.
      destruct (cannot_convert _); intros H; inversion H; [now left|].
      right. exists v. repeat split; assumption.
Qed.

(** ** Credentials *)

Lemma getApiKey_resolved (h : host) (p : string) :
  secretsPath h = Return p ->
  getApiKey h
  = Return (or_else (or_else (file_key h p service_key) (file_key h p generic_key))
                    (process_env h "AMP_API_KEY")).
Proof.
  intros Hp. unfold getApiKey, file_key. rewrite Hp. simpl rbind.
  destruct (readFile h p) as [content|e]; simpl; [|reflexivity].
  destruct (JSON_parse content) as [secrets|e]; simpl; [|reflexivity].
  destruct secrets; reflexivity.
Qed.

(** Without a secrets file that can be read and without the override,
    the key is [undefined]. *)
Lemma getApiKey_nothing (h : host) (p : string) (e : exn) :
  secretsPath h = Return p -> readFileSync h p = FileError e ->
  env h "AMP_API_KEY" = None ->
  getApiKey h = Return VUndefined.
Proof.
  intros Hp Hf He. rewrite (getApiKey_resolved h p Hp).
  unfold file_key, readFile, process_env. now rewrite Hf, He.
Qed.

(** Without a home directory in the environment [path.join] throws
    before the [try], whatever the override holds. *)
Lemma getApiKey_without_home (h : host) :
  env h "HOME" = None -> env h "USERPROFILE" = None ->
  getApiKey h = Throw (ERR_INVALID_ARG_TYPE "undefined").
Proof.
  intros H1 H2. unfold getApiKey, secretsPath, home_dir, process_env.
  now rewrite H1, H2.
Qed.

Example getApiKey_host_without_home :
  process_env host_without_home "AMP_API_KEY" = VStr "override" /\
  getApiKey host_without_home = Throw (ERR_INVALID_ARG_TYPE "undefined").
Proof. split; reflexivity. Qed.

(** ** The errors of a route *)

(** Every error a route raises is one of: an error of reading the local
    body, an error of the resolver itself, the missing credential, the
    error of the transport, or a rejection of the ['end'] callback; only
    the last two come after a request was issued. *)
Lemma api_error_kinds (h : host) (req : request) (op : operation)
    (tr : list https_request) (e : exn) :
  api h req op = (tr, Throw e) ->
  (tr = [] /\ params_of h req op = Throw e) \/
  (tr = [] /\ getApiKey h = Throw e) \/
  (tr = [] /\ e = Error no_api_key /\
   exists key, getApiKey h = Return key /\ ToBoolean key = false) \/
  (exists call, tr = [call] /\ https h call = NetError e) \/
  (exists call data, tr = [call] /\ https h call = Reply data /\ on_end h data = Throw e).
Proof.
  destruct (params_of h req op) as [params|e0] eqn:Hp.
  - rewrite (api_with_params h req op params Hp).
    destruct (getApiKey h) as [key|e1] eqn:Hk.
    + destruct (ToBoolean key) eqn:Ht.
      * rewrite (ampApiRequest_key h _ _ key Hk Ht). simpl fst. simpl snd.
        set (call := remote_request h key (method_name op) (VObj params)).
        destruct (https h call) as [e2|data] eqn:Hreply.
        -- intros H. inversion H. subst. right. right. right. left. now exists call.
        -- destruct (on_end h data) as [v|e2] eqn:Hend; [discriminate|].
           intros H. inversion H. subst. right. right. right. right.
           now exists call, data.
      * rewrite (ampApiRequest_no_key h _ _ key Hk Ht). simpl.
        intros H. inversion H. right. right. left. repeat split. now exists key.
    + rewrite (ampApiRequest_throws h _ _ e1 Hk). simpl.
      intros H. inversion H. subst. right. left. now split.
  - rewrite (api_without_params h req op e0 Hp). intros H. inversion H. now left.
Qed.

(** ** The error kinds, on the sample hosts *)

(** No credential, a failure the remote reports, a response that is not
    JSON, an error of the transport and a local body that is not JSON
    all reach the client as a 500 with the message of the error. *)
Example error_kinds_reach_the_client :
  server host_without_credential (get_tasks [])
  = ([], sendJson (error_body no_api_key) 500) /\
  snd (server (host_replying (Reply (Json (failure_envelope (VStr "x"))))) (get_tasks []))
  = sendJson (error_body "x") 500 /\
  snd (server (host_replying (Reply Malformed)) (get_tasks []))
  = sendJson (error_body "Invalid JSON response from API") 500 /\
  snd (server (host_replying (NetError (Error "connect ECONNREFUSED"))) (get_tasks []))
  = sendJson (error_body "connect ECONNREFUSED") 500 /\
  server host_with_key (post_tasks Malformed)
  = ([], sendJson (error_body "Invalid JSON in request body") 500).
Proof. repeat split. Qed.

(** ** What is written to the remote, and the list's limit in it *)

Lemma written_remote_request (h : host) (key : value) (method : string)
    (params : object) :
  written (remote_request h key method (VObj params))
  = Json (VObj [("method", VStr method); ("params", VObj (jsonify_props params))]).
Proof. reflexivity. Qed.

Lemma listParams_limit_first (h : host) (req : request) :
  exists rest,
    listParams h req
    = ("limit", or_else (VNum (parseInt (ToString h
                                 (searchParams_get (searchParams req) "limit"))))
                        (VNum (number_of_Z 100))) :: rest.
Proof.
  unfold listParams.
  destruct (ToBoolean (searchParams_get (searchParams req) "status")),
           (ToBoolean (searchParams_get (searchParams req) "repoURL")),
           (is_string "true" (searchParams_get (searchParams req) "ready"));
    eexists; reflexivity.
Qed.

(** The limit as it is written: the number, or [null] for an
    infinity. *)
Lemma written_limit (h : host) (req : request) (n : number) :
  lookup "limit" (listParams h req) = Some (VNum n) ->
  lookup "limit" (jsonify_props (listParams h req)) = Some (jsonify (VNum n)).
Proof.
  destruct (listParams_limit_first h req) as [rest E]. rewrite E.
  change (lookup "limit" (("limit", ?v) :: rest)) with (Some v).
  intros H. inversion H as [H1]. rewrite H1. reflexivity.
Qed.

(** The answer to a success is the envelope as [JSON.stringify] writes
    it. *)
Lemma sent_envelope (envelope : value) (st : Z) :
  ToBoolean (GetOpt envelope "ok") = true ->
  sent (sendJson envelope st) = Text (Json (jsonify envelope)).
Proof. destruct envelope; try discriminate. reflexivity. Qed.

(* ================================================================== *)
(** * The claims *)
(* ================================================================== *)

(** ** C1: the keys of the outbound params *)

(** C1, as the code has it.  For every routed request, each key of the
    params handed to the remote call is a field the local request gave a
    defined value, or the [status] of a create with its default
    ["open"], or the [limit] of a list with its default 100; and a
    request that is issued carries exactly those params. *)
Theorem C1_sent_keys_supplied_or_defaulted (h : host) (req : request) (op : operation) :
  route req = Some op ->
  (forall params k,
      params_of h req op = Return params -> In k (keys params) ->
      supplied req op k = true \/
      (op = CreateTask /\ k = "status" /\ lookup k params = Some (VStr "open")) \/
      (op = ListTasks /\ k = "limit" /\
       lookup k params = Some (VNum (number_of_Z 100)))) /\
  (forall r, In r (fst (server h req)) ->
      exists params,
        params_of h req op = Return params /\
        written r = JSON_stringify (VObj [("method", VStr (method_name op));
                                          ("params", VObj params)])).
Proof.
  intros Hr. split.
  - intros params k Hp Hin. destruct op; simpl in Hp.
    + (* list *)
      inversion Hp; subst params; clear Hp.
      destruct (listParams_keys h req k Hin) as [->|[Hne Ht]].
      * unfold supplied.
        destruct (searchParams_get (searchParams req) "limit") eqn:E; auto.
        right. right. repeat split. rewrite lookup_limit, E. reflexivity.
      * left. unfold supplied.
        destruct (searchParams_get (searchParams req) k); try reflexivity; discriminate.
    + (* get *)
      inversion Hp; subst params; clear Hp. destruct Hin as [<-|[]].
      left. unfold supplied. rewrite String.eqb_refl. simpl.
      pose proof (route_taskId req GetTask Hr) as Ht.
      destruct (part req 2); try reflexivity. now discriminate Ht.
    + (* create *)
      destruct (parseBody req) as [body|e] eqn:Hb; [|discriminate]. simpl in Hp.
      pose proof (createParams_Return body params Hp) as [Hn _].
      destruct (In_keys_lookup k params Hin) as [v Hv].
      pose proof Hv as Hv'.
      rewrite (lookup_createParams body params k Hp) in Hv.
      apply kept_Some in Hv as [Hv Hdef]. apply lookup_In in Hv.
      unfold supplied. simpl in Hv.
      repeat match goal with
             | H : _ \/ _ |- _ => destruct H as [H|H]
             | H : False |- _ => destruct H
             | H : (_, _) = (_, _) |- _ => inversion H; clear H; subst k
             end;
        rewrite (body_field_parsed req body _ Hb Hn);
        try (left; subst v; now rewrite Hdef).
      unfold or_else in *.
      destruct (ToBoolean (GetOpt body "status")) eqn:Et.
      * left. subst v. now rewrite Hdef.
      * right. left. repeat split. now subst v.
    + (* update *)
      destruct (parseBody req) as [body|e] eqn:Hb; [|discriminate]. simpl in Hp.
      pose proof (updateParams_Return (part req 2) body params Hp) as [Hn _].
      destruct (In_keys_lookup k params Hin) as [v Hv].
      rewrite (lookup_updateParams (part req 2) body params k Hp) in Hv.
      apply kept_Some in Hv as [Hv Hdef]. apply lookup_In in Hv.
      unfold supplied. simpl in Hv. left.
      repeat match goal with
             | H : _ \/ _ |- _ => destruct H as [H|H]
             | H : False |- _ => destruct H
             | H : (_, _) = (_, _) |- _ => inversion H; clear H; subst k
             end;
        try (change (("taskID" =? "taskID")%string) with true; cbv iota;
             subst v; now rewrite Hdef);
        match goal with
        | |- context [(?a =? "taskID")%string] =>
            change ((a =? "taskID")%string) with false; cbv iota
        end;
        rewrite (body_field_parsed req body _ Hb Hn); subst v; now rewrite Hdef.
    + (* delete *)
      inversion Hp; subst params; clear Hp. destruct Hin as [<-|[]].
      left. unfold supplied. rewrite String.eqb_refl. simpl.
      pose proof (route_taskId req DeleteTask Hr) as Ht.
      destruct (part req 2); try reflexivity. now discriminate Ht.
  - intros r Hin.
    destruct (server_requests h req op r Hr Hin) as [params [k [Hp [_ [_ [_ ->]]]]]].
    exists params. now split.
Qed.

Lemma C1_witness :
  route (post_tasks (Json title_t)) = Some CreateTask /\
  params_of host_with_key (post_tasks (Json title_t)) CreateTask
  = Return [("title", VStr "t"); ("status", VStr "open")] /\
  (supplied (post_tasks (Json title_t)) CreateTask "status" = true \/
   (CreateTask = CreateTask /\ "status" = "status" /\
    lookup "status" [("title", VStr "t"); ("status", VStr "open")] = Some (VStr "open")) \/
   (CreateTask = ListTasks /\ "status" = "limit" /\
    lookup "status" [("title", VStr "t"); ("status", VStr "open")]
    = Some (VNum (number_of_Z 100)))).
Proof.
  split; [reflexivity|]. split; [reflexivity|].
  apply (proj1 (C1_sent_keys_supplied_or_defaulted host_with_key
                  (post_tasks (Json title_t)) CreateTask eq_refl)
               [("title", VStr "t"); ("status", VStr "open")] "status").
  - reflexivity.
  - simpl. auto.
Defined.

(** C1 as stated fails on a list without a [limit] parameter: the query
    gives [limit] no value, and the params sent hold the key [limit]. *)
Lemma C1_counterexample :
  route (get_tasks []) = Some ListTasks /\
  searchParams_get (searchParams (get_tasks [])) "limit" = VNull /\
  supplied (get_tasks []) ListTasks "limit" = false /\
  params_of host_with_key (get_tasks []) ListTasks
  = Return [("limit", VNum (number_of_Z 100))] /\
  map written (fst (server host_with_key (get_tasks [])))
  = [Json (VObj [("method", VStr "listTasks");
                 ("params", VObj [("limit", VNum (number_of_Z 100))])])].
Proof. repeat split. Qed.

(** ** C2: the round trip of a create *)

(** C2, as the code has it.  With a credential resolved that the
    [Authorization] header can carry, a [POST /api/tasks] whose body is
    [{"title":"t"}] issues exactly one request, for the method
    [createTask] with the params [{title: "t", status: "open"}]; when
    the remote answers an envelope whose [ok] is truthy, the local
    response is a 201 whose body is that envelope as [JSON.stringify]
    writes it: unchanged, but for a number that overflowed to an
    infinity on parsing, which is written as [null]. *)
Theorem C2_create_round_trip (h : host) (req : request) (key : value) :
  req_method req = "POST" -> pathname req = "/api/tasks" ->
  stream req = BodyEnd (Json title_t) ->
  getApiKey h = Return key -> ToBoolean key = true -> usable_key h key = true ->
  let params := VObj [("title", VStr "t"); ("status", VStr "open")] in
  let call := remote_request h key "createTask" params in
  fst (server h req) = [call] /\
  written call = Json (VObj [("method", VStr "createTask"); ("params", params)]) /\
  (forall envelope,
      https h call = Reply (Json envelope) ->
      ToBoolean (GetOpt envelope "ok") = true ->
      status (snd (server h req)) = 201 /\
      sent (snd (server h req)) = Text (Json (jsonify envelope)) /\
      (is_json envelope = true -> sent (snd (server h req)) = Text (Json envelope))).
Proof.
  intros Hm Hpath Hbody Hk Ht _ params call.
  assert (Hr : route req = Some CreateTask).
  { unfold route, part, pathParts. rewrite Hm, Hpath. reflexivity. }
  assert (Hp : params_of h req CreateTask
               = Return [("title", VStr "t"); ("status", VStr "open")]).
  { unfold params_of, parseBody. rewrite Hbody. reflexivity. }
  rewrite (server_routed h req CreateTask Hr), (api_with_params h req CreateTask _ Hp).
  rewrite (ampApiRequest_key h _ _ key Hk Ht). simpl fst. simpl snd.
  fold params. fold call. split; [|split].
  - now destruct (https h call) as [e|data]; [|destruct (on_end h data)].
  - reflexivity.
  - intros envelope Hreply Hok. rewrite Hreply, (on_end_success h envelope Hok).
    simpl snd. split; [reflexivity|].
    rewrite (sent_envelope envelope _ Hok). split; [reflexivity|].
    intros Hjson. now rewrite (jsonify_is_json envelope Hjson).
Qed.

Lemma C2_witness :
  getApiKey host_with_key = Return (VStr "secret") /\
  usable_key host_with_key (VStr "secret") = true /\
  map written (fst (server host_with_key (post_tasks (Json title_t))))
  = [Json (VObj [("method", VStr "createTask");
                 ("params", VObj [("title", VStr "t"); ("status", VStr "open")])])] /\
  status (snd (server host_with_key (post_tasks (Json title_t)))) = 201 /\
  sent (snd (server host_with_key (post_tasks (Json title_t)))) = Text (Json ok_envelope).
Proof.
  pose proof (C2_create_round_trip host_with_key (post_tasks (Json title_t))
                (VStr "secret") eq_refl eq_refl eq_refl eq_refl eq_refl eq_refl)
    as [H1 [_ H3]].
  split; [reflexivity|]. split; [reflexivity|]. split; [now rewrite H1|].
  destruct (H3 ok_envelope eq_refl eq_refl) as [Hs [_ Hj]].
  split; [exact Hs | exact (Hj eq_refl)].
Defined.

(** C2 as stated fails twice.  On a host where no credential is found
    the same request issues no remote call and is answered with a 500.
    And on a host with a credential, an envelope that holds a number
    which overflowed on parsing is not relayed unchanged: the number is
    written as [null]. *)
Lemma C2_counterexample :
  (route (post_tasks (Json title_t)) = Some CreateTask /\
   getApiKey host_without_credential = Return VUndefined /\
   server host_without_credential (post_tasks (Json title_t))
   = ([], sendJson (error_body no_api_key) 500)) /\
  (https (host_replying (Reply (Json overflow_envelope)))
     (remote_request (host_replying (Reply (Json overflow_envelope))) (VStr "secret")
        "createTask" (VObj [("title", VStr "t"); ("status", VStr "open")]))
   = Reply (Json overflow_envelope) /\
   ToBoolean (GetOpt overflow_envelope "ok") = true /\
   sent (snd (server (host_replying (Reply (Json overflow_envelope)))
                (post_tasks (Json title_t))))
   = Text (Json (VObj [("ok", VBool true); ("data", VNull)])) /\
   VObj [("ok", VBool true); ("data", VNull)] <> overflow_envelope).
Proof. repeat split. discriminate. Qed.

(** ** C3: the message of a failure the remote reports *)




(** A message that is an object with a [toString] property of its own
    has no text: [new Error] throws inside the [try], and the [catch]
    rejects with its fixed message. *)
Example message_without_text :
  snd (ampApiRequest
         (host_replying
            (Reply (Json (failure_envelope (VObj [("toString", VNum (number_of_Z 1))])))))
         "listTasks" (VObj []))
  = Throw (Error "Invalid JSON response from API").
Proof. reflexivity. Qed.

(** ** C4: one shape for every error *)

(** C4. Whatever error a route raises, the listener answers with status
    500 and the JSON body [{ok: false, error: message}] holding the
    message of that error; and the error is one of: an error of reading
    the local body, an error of the resolver, the missing credential, an
    error of the transport, a rejection for what the remote answered
    (not JSON, or a failure it reports). *)
Theorem C4_uniform_error_response (h : host) (req : request) (op : operation)
    (tr : list https_request) (e : exn) :
  route req = Some op -> api h req op = (tr, Throw e) ->
  server h req = (tr, sendJson (error_body (message e)) 500) /\
  status (snd (server h req)) = 500 /\
  sent (snd (server h req)) = Text (Json (error_body (message e))) /\
  ((tr = [] /\ params_of h req op = Throw e) \/
   (tr = [] /\ getApiKey h = Throw e) \/
   (tr = [] /\ e = Error no_api_key /\
    exists key, getApiKey h = Return key /\ ToBoolean key = false) \/
   (exists call, tr = [call] /\ https h call = NetError e) \/
   (exists call data,
       tr = [call] /\ https h call = Reply data /\ on_end h data = Throw e)).
Proof.
  intros Hr Ha. rewrite (server_routed h req op Hr), Ha.
  split; [reflexivity|]. split; [reflexivity|]. split; [reflexivity|].
  now apply api_error_kinds.
Qed.

Lemma C4_witness :
  route (get_tasks []) = Some ListTasks /\
  api host_without_credential (get_tasks []) ListTasks = ([], Throw (Error no_api_key)) /\
  server host_without_credential (get_tasks [])
  = ([], sendJson (error_body no_api_key) 500).
Proof.
  split; [reflexivity|]. split; [reflexivity|].
  exact (proj1 (C4_uniform_error_response host_without_credential (get_tasks [])
                  ListTasks [] (Error no_api_key) eq_refl eq_refl)).
Defined.

(** ** C5: the order of the credential sources *)

(** C5, as the code has it.  Once the path of the secrets file is
    computed, the resolver returns the service-qualified key of the file
    when it is truthy, otherwise the generic key of the file when it is
    truthy, otherwise the override of the environment: the override is
    what it returns when the file cannot be read or parsed and when
    neither key is truthy, and the result is falsy only when all three
    are. *)
Theorem C5_credential_order (h : host) (p : string) :
  secretsPath h = Return p ->
  let service := file_key h p service_key in
  let generic := file_key h p generic_key in
  let override := process_env h "AMP_API_KEY" in
  getApiKey h = Return (or_else (or_else service generic) override) /\
  (ToBoolean service = true -> getApiKey h = Return service) /\
  (ToBoolean service = false -> ToBoolean generic = true ->
   getApiKey h = Return generic) /\
  (ToBoolean service = false -> ToBoolean generic = false ->
   getApiKey h = Return override) /\
  (forall e, (content <- readFile h p ;; JSON_parse content)%js = Throw e ->
             getApiKey h = Return override) /\
  (ToBoolean (or_else (or_else service generic) override) = false <->
   ToBoolean service = false /\ ToBoolean generic = false /\
   ToBoolean override = false).
Proof.
  intros Hp service generic override.
  pose proof (getApiKey_resolved h p Hp) as Hk.
  fold service generic override in Hk. rewrite Hk. unfold or_else.
  split; [reflexivity|]. split; [|split; [|split; [|split]]].
  - intros H1. rewrite H1. cbv iota. now rewrite H1.
  - intros H1 H2. rewrite H1. cbv iota. now rewrite H2.
  - intros H1 H2. rewrite H1. cbv iota. now rewrite H2.
  - intros e He. subst service generic. unfold file_key.
    destruct (readFile h p) as [content|e']; simpl in *; [|reflexivity].
    destruct (JSON_parse content); [discriminate|reflexivity].
  - destruct (ToBoolean service) eqn:E1; cbv iota; rewrite ?E1.
    + split; [discriminate | intros [H _]; discriminate H].
    + destruct (ToBoolean generic) eqn:E2; cbv iota; rewrite ?E2.
      * split; [discriminate | intros [_ [H _]]; discriminate H].
      * split; [now repeat split | now intros [_ [_ H]]].
Qed.

Lemma C5_witness :
  secretsPath host_with_key = Return sample_secrets_path /\
  getApiKey host_with_key = Return (VStr "secret").
Proof.
  split; [reflexivity|].
  exact (proj1 (C5_credential_order host_with_key sample_secrets_path eq_refl)).
Defined.

(** C5 as stated fails on a secrets file whose service-qualified key is
    present and empty: the generic key is returned. *)
Lemma C5_counterexample :
  secretsPath host_with_empty_service_key = Return sample_secrets_path /\
  readFileSync host_with_empty_service_key sample_secrets_path
  = FileData (Json (VObj [(service_key, VStr ""); (generic_key, VStr "generic")])) /\
  lookup service_key [(service_key, VStr ""); (generic_key, VStr "generic")]
  = Some (VStr "") /\
  getApiKey host_with_empty_service_key = Return (VStr "generic").
Proof. repeat split. Qed.

(** ** C6: no credential, no remote call *)

(** C6, as the code has it.  When the resolver returns no truthy key, a
    routed request issues no HTTPS request and is answered with status
    500; the body carries the missing-credential message whenever the
    params of the route were built, which the list, get and delete
    routes always do, and the message of the body error when create or
    update could not read their body. *)
Theorem C6_no_credential_no_call (h : host) (req : request) (op : operation)
    (key : value) :
  route req = Some op -> getApiKey h = Return key -> ToBoolean key = false ->
  fst (server h req) = [] /\
  status (snd (server h req)) = 500 /\
  (forall params, params_of h req op = Return params ->
     sent (snd (server h req)) = Text (Json (error_body no_api_key))) /\
  (forall e, params_of h req op = Throw e ->
     sent (snd (server h req)) = Text (Json (error_body (message e)))) /\
  (op = ListTasks \/ op = GetTask \/ op = DeleteTask ->
     sent (snd (server h req)) = Text (Json (error_body no_api_key))).
Proof.
  intros Hr Hk Hf. rewrite (server_routed h req op Hr).
  assert (Hwith : forall params, params_of h req op = Return params ->
            api h req op = ([], Throw (Error no_api_key))).
  { intros params Hp. rewrite (api_with_params h req op params Hp).
    now rewrite (ampApiRequest_no_key h _ _ key Hk Hf). }
  destruct (params_of h req op) as [params|e] eqn:Hp.
  - rewrite (Hwith params eq_refl). repeat split; intros; discriminate.
  - rewrite (api_without_params h req op e Hp). repeat split.
    + intros; discriminate.
    + intros e' He. now inversion He.
    + intros [->|[->| ->]]; discriminate.
Qed.

Lemma C6_witness :
  route (get_tasks []) = Some ListTasks /\
  getApiKey host_without_credential = Return VUndefined /\
  fst (server host_without_credential (get_tasks [])) = [] /\
  status (snd (server host_without_credential (get_tasks []))) = 500.
Proof.
  split; [reflexivity|]. split; [reflexivity|].
  pose proof (C6_no_credential_no_call host_without_credential (get_tasks [])
                ListTasks VUndefined eq_refl
                (getApiKey_nothing host_without_credential sample_secrets_path ENOENT
                   eq_refl eq_refl eq_refl)
                eq_refl) as H.
  split; apply H.
Defined.

(** C6 as stated fails on a create whose body is not JSON: with no
    credential to be found, the answer is a 500 and no request is
    issued, but the message is the one of the body. *)
Lemma C6_counterexample :
  route (post_tasks Malformed) = Some CreateTask /\
  readFileSync host_without_credential sample_secrets_path = FileError ENOENT /\
  env host_without_credential "AMP_API_KEY" = None /\
  getApiKey host_without_credential = Return VUndefined /\
  server host_without_credential (post_tasks Malformed)
  = ([], sendJson (error_body "Invalid JSON in request body") 500) /\
  "Invalid JSON in request body" <> no_api_key.
Proof. repeat split. discriminate. Qed.

(** ** C7: [ready] is sent only as [true], and only for the literal ["true"] *)

(** C7. For the list operation the params hold [ready: true] exactly
    when the query parameter [ready] is the string ["true"]; for every
    other value, and when the parameter is absent, the params have no
    [ready] key at all, so [ready: false] is never sent.  The request
    issued for a list carries exactly these params. *)
Theorem C7_ready_only_for_literal_true (h : host) (req : request) :
  let ready := searchParams_get (searchParams req) "ready" in
  (lookup "ready" (listParams h req) = Some (VBool true) <-> ready = VStr "true") /\
  (~ In "ready" (keys (listParams h req)) <-> ready <> VStr "true") /\
  lookup "ready" (listParams h (get_tasks [])) = None /\
  (forall r, route req = Some ListTasks -> In r (fst (server h req)) ->
     written r = JSON_stringify (VObj [("method", VStr "listTasks");
                                       ("params", VObj (listParams h req))])).
Proof.
  intros ready. pose proof (lookup_ready h req) as Hl. fold ready in Hl.
  repeat split.
  - intros H. apply is_string_spec. rewrite Hl in H.
    now destruct (is_string "true" ready).
  - intros H. apply is_string_spec in H. now rewrite Hl, H.
  - intros Hout E. apply Hout. apply is_string_spec in E. rewrite E in Hl.
    eapply lookup_Some_In, Hl.
  - intros Hne. apply lookup_None_iff. rewrite Hl.
    destruct (is_string "true" ready) eqn:E; [|reflexivity].
    apply is_string_spec in E. contradiction.
  - intros r Hr Hin.
    destruct (server_requests h req ListTasks r Hr Hin) as [params [k [Hp [_ [_ [_ ->]]]]]].
    simpl in Hp. inversion Hp. reflexivity.
Qed.

Lemma C7_witness :
  lookup "ready" (listParams host_with_key (get_tasks [("ready", "true")]))
  = Some (VBool true) /\
  ~ In "ready" (keys (listParams host_with_key (get_tasks [("ready", "false")]))).
Proof.
  split.
  - apply (proj1 (C7_ready_only_for_literal_true host_with_key
                    (get_tasks [("ready", "true")]))). reflexivity.
  - apply (proj1 (proj2 (C7_ready_only_for_literal_true host_with_key
                           (get_tasks [("ready", "false")])))). discriminate.
Defined.

(** ** C8: a [limit] from which no integer is read is an absent [limit] *)




(** ** C9: a [limit] that parses to zero falls back as well *)

(** C9. The limit sent is the parsed [limit] when that is truthy and 100
    otherwise; a result of [parseInt] is falsy precisely when it is
    [NaN] or zero, so the literal ["0"], which parses to zero, gives the
    limit 100. *)
Theorem C9_zero_limit_falls_back (h : host) (req : request) :
  let n := parseInt (ToString h (searchParams_get (searchParams req) "limit")) in
  lookup "limit" (listParams h req)
  = Some (VNum (if number_truthy n then n else number_of_Z 100)) /\
  (number_truthy n = false <-> n = NaN \/ n = number_of_Z 0) /\
  parseInt "0" = number_of_Z 0 /\
  lookup "limit" (listParams h (get_tasks [("limit", "0")])) = Some (VNum (number_of_Z 100)).
Proof.
  intros n. split; [|split; [|split]].
  - rewrite lookup_limit. fold n. unfold or_else. simpl ToBoolean.
    now destruct (number_truthy n).
  - apply parseInt_falsy.
  - reflexivity.
  - rewrite lookup_limit. reflexivity.
Qed.

Lemma C9_witness :
  parseInt "0" = number_of_Z 0 /\
  lookup "limit" (listParams host_with_key (get_tasks [("limit", "0")]))
  = Some (VNum (number_of_Z 100)).
Proof.
  pose proof (C9_zero_limit_falls_back host_with_key (get_tasks [("limit", "0")]))
    as [_ [_ [H1 H2]]].
  split; assumption.
Defined.

(** The limit is what [parseInt] reads, so a prefix of digits counts. *)
Example limit_of_digit_prefix :
  parseInt "12abc" = number_of_Z 12 /\
  lookup "limit" (listParams host_with_key (get_tasks [("limit", "12abc")]))
  = Some (VNum (number_of_Z 12)).
Proof. split; reflexivity. Qed.

(** ** C10: [null] is forwarded, [undefined] is stripped *)

(** C10, as the code has it.  For a body that is an object and each of
    the six fields: update keeps the field with the value of the body
    unless that is [undefined], so a field set to [null] is sent as
    [null]; create does the same for every field but [status], which is
    always sent, with the value of the body when that is truthy and with
    ["open"] otherwise, [null] included. *)
Theorem C10_null_kept_undefined_stripped (o : object) (taskId : value) (f : string) :
  In f fields ->
  exists created updated,
    createParams (VObj o) = Return created /\
    updateParams taskId (VObj o) = Return updated /\
    lookup f updated = (if is_undefined (prop o f) then None else Some (prop o f)) /\
    (f <> "status" ->
     lookup f created = (if is_undefined (prop o f) then None else Some (prop o f))) /\
    lookup "status" created = Some (or_else (prop o "status") (VStr "open")) /\
    (prop o f = VNull ->
     lookup f updated = Some VNull /\
     (f <> "status" -> lookup f created = Some VNull) /\
     (f = "status" -> lookup f created = Some (VStr "open"))) /\
    (forall h req r,
        route req = Some CreateTask -> parseBody req = Return (VObj o) ->
        In r (fst (server h req)) ->
        written r = JSON_stringify (VObj [("method", VStr "createTask");
                                          ("params", VObj created)])) /\
    (forall h req r,
        route req = Some UpdateTask -> parseBody req = Return (VObj o) ->
        part req 2 = taskId -> In r (fst (server h req)) ->
        written r = JSON_stringify (VObj [("method", VStr "updateTask");
                                          ("params", VObj updated)])).
Proof.
  intros Hf.
  exists (remove_undefined (create_literal (VObj o))),
         (remove_undefined (update_literal taskId (VObj o))).
  pose proof (createParams_nullish (VObj o) eq_refl) as Hc.
  pose proof (updateParams_nullish taskId (VObj o) eq_refl) as Hu.
  assert (Hup : lookup f (remove_undefined (update_literal taskId (VObj o)))
                = if is_undefined (prop o f) then None else Some (prop o f)).
  { rewrite (lookup_updateParams taskId (VObj o) _ f Hu).
    simpl in Hf.
    repeat match goal with
           | H : _ \/ _ |- _ => destruct H as [H|H]
           | H : False |- _ => destruct H
           end; subst f; reflexivity. }
  assert (Hcr : f <> "status" ->
                lookup f (remove_undefined (create_literal (VObj o)))
                = if is_undefined (prop o f) then None else Some (prop o f)).
  { intros Hne. rewrite (lookup_createParams (VObj o) _ f Hc).
    simpl in Hf.
    repeat match goal with
           | H : _ \/ _ |- _ => destruct H as [H|H]
           | H : False |- _ => destruct H
           end; subst f; try reflexivity. now contradiction Hne. }
  assert (Hst : lookup "status" (remove_undefined (create_literal (VObj o)))
                = Some (or_else (prop o "status") (VStr "open"))).
  { rewrite (lookup_createParams (VObj o) _ "status" Hc).
    change (lookup "status" (create_literal (VObj o)))
      with (Some (or_else (prop o "status") (VStr "open"))).
    unfold kept, or_else. destruct (prop o "status") as [| |[]|[]| | |]; try reflexivity;
      simpl; now destruct (negb _). }
  split; [exact Hc|]. split; [exact Hu|]. split; [exact Hup|].
  split; [exact Hcr|]. split; [exact Hst|]. split; [|split].
  - intros Hnull. split; [|split].
    + now rewrite Hup, Hnull.
    + intros Hne. now rewrite (Hcr Hne), Hnull.
    + intros ->. now rewrite Hst, Hnull.
  - intros h req r Hr Hb Hin.
    destruct (server_requests h req CreateTask r Hr Hin) as [params [k [Hp [_ [_ [_ ->]]]]]].
    simpl in Hp. rewrite Hb in Hp. simpl in Hp. rewrite Hc in Hp.
    inversion Hp. reflexivity.
  - intros h req r Hr Hb Hid Hin.
    destruct (server_requests h req UpdateTask r Hr Hin) as [params [k [Hp [_ [_ [_ ->]]]]]].
    simpl in Hp. rewrite Hb, Hid in Hp. simpl in Hp. rewrite Hu in Hp.
    inversion Hp. reflexivity.
Qed.

Lemma C10_witness :
  In "description" fields /\
  exists created updated,
    createParams (VObj [("description", VNull)]) = Return created /\
    updateParams (VStr "85") (VObj [("description", VNull)]) = Return updated /\
    lookup "description" updated = Some VNull /\
    lookup "description" created = Some VNull.
Proof.
  split; [simpl; auto|].
  destruct (C10_null_kept_undefined_stripped [("description", VNull)] (VStr "85")
              "description") as [created [updated [Hc [Hu [_ [_ [_ [Hnull _]]]]]]]].
  - simpl. auto.
  - exists created, updated. destruct (Hnull eq_refl) as [H1 [H2 _]].
    repeat split; try assumption. apply H2. discriminate.
Defined.

(** C10 as stated fails for the [status] of a create: set to [null] in
    the body, it is sent as ["open"]. *)
Lemma C10_counterexample :
  lookup "status" [("status", VNull)] = Some VNull /\
  createParams (VObj [("status", VNull)]) = Return [("status", VStr "open")] /\
  map written (fst (server host_with_key (post_tasks (Json (VObj [("status", VNull)])))))
  = [Json (VObj [("method", VStr "createTask");
                 ("params", VObj [("status", VStr "open")])])].
Proof. repeat split. Qed.

(* ================================================================== *)
(** * Further properties of the listener *)
(* ================================================================== *)

(** ** What every response has *)

Lemma sendJson_headers (data : value) (st : Z) :
  res_headers (sendJson data st) = (cors ++ [("Content-Type", "application/json")])%list.
Proof. reflexivity. Qed.

(** What the [try] block returns: a JSON answer of a route with its
    status code, the health answer, or a static answer. *)
Lemma try_block_Return (h : host) (req : request) (tr : list https_request)
    (res : response) :
  try_block h req = (tr, Return res) ->
  (exists op data, route req = Some op /\ res = sendJson data (success_code op)) \/
  (route req = None /\ tr = [] /\
   exists data, res = sendJson data 200) \/
  (route req = None /\ tr = [] /\ static h req = Return res).
Proof.
  unfold try_block. destruct (route req) as [op|] eqn:Hr.
  - destruct (params_of h req op) as [params|e] eqn:Hp.
    + rewrite (api_with_params h req op params Hp).
      destruct (snd (ampApiRequest h (method_name op) (VObj params))) as [data|e];
        intros H; inversion H. left. now exists op, data.
    + rewrite (api_without_params h req op e Hp). discriminate.
  - destruct (pathname req =? "/api/health")%string.
    + intros H. inversion H. right. left. repeat split. eauto.
    + unfold lift. intros H. inversion H. right. right. now repeat split.
Qed.

Lemma static_Return (h : host) (req : request) (res : response) :
  static h req = Return res ->
  (exists content, readFileSync h (filePath h req) = FileData content /\
     res = {| status := 200;
              res_headers := (cors ++ [("Content-Type", getMimeType (filePath h req))])%list;
              sent := Text content |}) \/
  (exists e, readFileSync h (filePath h req) = FileError e /\ code e = Some "ENOENT" /\
     res = {| status := 404;
              res_headers := (cors ++ [("Content-Type", "text/plain")])%list;
              sent := Plain "Not Found" |}).
Proof.
  unfold static. fold (filePath h req).
  destruct (readFileSync h (filePath h req)) as [content|e].
  - intros H. inversion H. left. now exists content.
  - destruct (code e) as [c|] eqn:Hc; [|discriminate].
    destruct (String.eqb_spec c "ENOENT") as [->|]; [|discriminate].
    intros H. inversion H. right. now exists e.
Qed.



(** X2. The listener answers with 200, 201, 204, 404 or 500 and nothing
    else; 204 is the answer to OPTIONS and to nothing else, and 201 is
    only ever the answer to a create. *)
Theorem status_is_one_of_five (h : host) (req : request) :
  In (status (snd (server h req))) status_codes /\
  (status (snd (server h req)) = 204 <-> req_method req = "OPTIONS") /\
  (status (snd (server h req)) = 201 -> route req = Some CreateTask).
Proof.
  unfold server. destruct (String.eqb_spec (req_method req) "OPTIONS") as [E|E].
  - simpl. repeat split; auto; discriminate.
  - assert (Hs : let st := status (snd (match try_block h req with
                   | (tr, Return res) => (tr, res)
                   | (tr, Throw error) =>
                       (tr, sendJson (VObj [("ok", VBool false);
                                            ("error", VStr (message error))]) 500)
                   end)) in
                 st = 500 \/ st = 404 \/ st = 200 \/
                 (st = 201 /\ route req = Some CreateTask)).
    { destruct (try_block h req) as [tr [res|e]] eqn:Ht; simpl; [|now left].
      destruct (try_block_Return h req tr res Ht)
        as [[op [data [Hr ->]]]|[[_ [_ [data ->]]]|[_ [_ Hst]]]].
      - destruct op; simpl; auto.
      - simpl. auto.
      - destruct (static_Return h req res Hst) as [[c [_ ->]]|[e [_ [_ ->]]]]; simpl; auto. }
    simpl in Hs. unfold status_codes.
    destruct Hs as [Hs|[Hs|[Hs|[Hs Hr]]]]; rewrite Hs;
      (split; [simpl; auto 10|];
       split; [split; intros H; [discriminate H | exfalso; now apply E]|];
       intros H; try discriminate H; assumption).
Qed.

(** ** The requests sent to the remote *)

Lemma server_unrouted (h : host) (req : request) :
  route req = None -> fst (server h req) = [].
Proof.
  intros Hr. unfold server, try_block. rewrite Hr.
  destruct (req_method req =? "OPTIONS")%string; [reflexivity|].
  destruct (pathname req =? "/api/health")%string; [reflexivity|].
  unfold lift. now destruct (static h req).
Qed.

(** X3. One local request causes at most one remote request, and none
    at all unless it is one of the five routed operations. *)
Theorem at_most_one_remote_request (h : host) (req : request) :
  (length (fst (server h req)) <= 1)%nat /\
  (route req = None -> fst (server h req) = []).
Proof.
  split; [|apply server_unrouted].
  destruct (route req) as [op|] eqn:Hr.
  - destruct (fst (server h req)) as [|r l] eqn:E; [simpl; lia|].
    assert (Hin : In r (fst (server h req))) by (rewrite E; now left).
    destruct (server_requests h req op r Hr Hin) as [_ [_ [_ [_ [_ [H _]]]]]].
    rewrite E in H. inversion H. simpl. lia.
  - rewrite (server_unrouted h req Hr). simpl. lia.
Qed.

(** X4. Whatever is sent goes to the one remote endpoint: host
    [ampcode.com], port 443, method POST, the path [/api/internal?]
    followed by the method of the routed operation, with the resolved
    key as bearer token, the three client headers, and the JSON text of
    [{method, params}] as body, whose byte length is the content
    length. *)
Theorem remote_request_shape (h : host) (req : request) (r : https_request) :
  In r (fst (server h req)) ->
  exists op key params,
    route req = Some op /\ params_of h req op = Return params /\
    getApiKey h = Return key /\ ToBoolean key = true /\
    hostname r = "ampcode.com" /\ port r = 443 /\ http_method r = "POST" /\
    path r = "/api/internal?" ++ method_name op /\
    header "Authorization" (headers r) = Some (Literal ("Bearer " ++ ToString h key)) /\
    header "Content-Type" (headers r) = Some (Literal "application/json") /\
    header "Content-Length" (headers r) = Some (ByteLength (written r)) /\
    header "X-Amp-Client-Application" (headers r) = Some (Literal "AmpTaskViewer") /\
    header "X-Amp-Client-Type" (headers r) = Some (Literal "web") /\
    header "X-Amp-Client-Bundle" (headers r) = Some (Literal "amp-task-management") /\
    written r = JSON_stringify (VObj [("method", VStr (method_name op));
                                      ("params", VObj params)]).
Proof.
  intros Hin. destruct (route req) as [op|] eqn:Hr.
  - destruct (server_requests h req op r Hr Hin) as [params [key [Hp [Hk [Ht [_ ->]]]]]].
    exists op, key, params. repeat split; assumption.
  - rewrite (server_unrouted h req Hr) in Hin. contradiction.
Qed.

Lemma remote_request_shape_witness :
  In (remote_request host_with_key (VStr "secret") "listTasks"
        (VObj [("limit", VNum (number_of_Z 100))]))
     (fst (server host_with_key (get_tasks []))) /\
  exists op key params,
    route (get_tasks []) = Some op /\
    params_of host_with_key (get_tasks []) op = Return params /\
    getApiKey host_with_key = Return key /\ ToBoolean key = true.
Proof.
  assert (Hin : In (remote_request host_with_key (VStr "secret") "listTasks"
                      (VObj [("limit", VNum (number_of_Z 100))]))
                   (fst (server host_with_key (get_tasks []))))
    by (left; reflexivity).
  split; [exact Hin|].
  destruct (remote_request_shape host_with_key (get_tasks []) _ Hin)
    as [op [key [params [H1 [H2 [H3 [H4 _]]]]]]].
  exists op, key, params. repeat split; assumption.
Defined.

(** ** The answer to a call that succeeds *)

(** X5. On every route, when the params are built, a key is resolved
    that the [Authorization] header can carry and the remote answers an
    envelope whose [ok] is truthy, the listener issues that one request
    and relays the envelope as [JSON.stringify] writes it (unchanged,
    but for a number that overflowed to an infinity on parsing, which
    is written as [null]), with the status of the route: 201 for a
    create, 200 for the other four. *)
Theorem success_relays_the_envelope (h : host) (req : request) (op : operation)
    (params : object) (key envelope : value) :
  route req = Some op -> params_of h req op = Return params ->
  getApiKey h = Return key -> ToBoolean key = true -> usable_key h key = true ->
  https h (remote_request h key (method_name op) (VObj params)) = Reply (Json envelope) ->
  ToBoolean (GetOpt envelope "ok") = true ->
  server h req = ([remote_request h key (method_name op) (VObj params)],
                  sendJson envelope (success_code op)) /\
  (op = CreateTask -> status (snd (server h req)) = 201) /\
  (op <> CreateTask -> status (snd (server h req)) = 200) /\
  sent (snd (server h req)) = Text (Json (jsonify envelope)) /\
  (is_json envelope = true -> sent (snd (server h req)) = Text (Json envelope)).
Proof.
  intros Hr Hp Hk Ht _ Hreply Hok.
  assert (Hs : server h req = ([remote_request h key (method_name op) (VObj params)],
                               sendJson envelope (success_code op))).
  { rewrite (server_routed h req op Hr), (api_with_params h req op params Hp).
    rewrite (ampApiRequest_key h _ _ key Hk Ht). simpl fst. simpl snd.
    now rewrite Hreply, (on_end_success h envelope Hok). }
  rewrite Hs. split; [reflexivity|]. split; [|split; [|split]].
  - now intros ->.
  - intros Hne. destruct op; try reflexivity. now contradiction Hne.
  - simpl snd. apply (sent_envelope envelope _ Hok).
  - intros Hj. simpl snd. rewrite (sent_envelope envelope _ Hok).
    now rewrite (jsonify_is_json envelope Hj).
Qed.

Lemma success_relays_the_envelope_witness :
  route delete_task_85 = Some DeleteTask /\
  params_of host_with_key delete_task_85 DeleteTask = Return [("taskID", VStr "85")] /\
  usable_key host_with_key (VStr "secret") = true /\
  status (snd (server host_with_key delete_task_85)) = 200 /\
  sent (snd (server host_with_key delete_task_85)) = Text (Json ok_envelope).
Proof.
  pose proof (success_relays_the_envelope host_with_key delete_task_85 DeleteTask
                [("taskID", VStr "85")] (VStr "secret") ok_envelope
                eq_refl eq_refl eq_refl eq_refl eq_refl eq_refl eq_refl)
    as [_ [_ [H2 [_ H3]]]].
  split; [reflexivity|]. split; [reflexivity|]. split; [reflexivity|].
  split; [|exact (H3 eq_refl)].
  apply H2. discriminate.
Defined.

(** X6. Get and delete send exactly [{taskID: id}], where [id] is the
    third segment of the path that is not empty, as a string and as the
    URL has it. *)
Theorem get_and_delete_send_the_path_id (h : host) (req : request) (op : operation) :
  route req = Some op -> op = GetTask \/ op = DeleteTask ->
  exists id, nth_error (pathParts req) 2 = Some id /\ id <> "" /\
             params_of h req op = Return [("taskID", VStr id)].
Proof.
  intros Hr Hop.
  assert (Ht : ToBoolean (part req 2) = true).
  { apply (route_taskId req op Hr); destruct Hop; subst; discriminate. }
  unfold part in *. destruct (nth_error (pathParts req) 2) as [id|] eqn:E;
    [|discriminate].
  exists id. split; [reflexivity|]. split.
  - intros ->. discriminate.
  - destruct Hop; subst; simpl; unfold part; now rewrite E.
Qed.

Lemma get_and_delete_send_the_path_id_witness :
  route get_task_85 = Some GetTask /\
  exists id, nth_error (pathParts get_task_85) 2 = Some id /\ id <> "" /\
             params_of host_with_key get_task_85 GetTask = Return [("taskID", VStr id)].
Proof.
  split; [reflexivity|].
  apply (get_and_delete_send_the_path_id host_with_key get_task_85 GetTask eq_refl).
  now left.
Defined.

(** ** What a request is read for *)

(** X7. Only create and update read the body of the request: for every
    other request the answer and the request sent are the same whatever
    the body holds, JSON or not. *)
Theorem body_read_only_by_create_and_update (h : host) (req : request)
    (body body' : text) :
  route req <> Some CreateTask -> route req <> Some UpdateTask ->
  server h (set_stream req (BodyEnd body)) = server h (set_stream req (BodyEnd body')).
Proof.
  intros Hc Hu. unfold server, try_block.
  change (route (set_stream req (BodyEnd body))) with (route req).
  change (route (set_stream req (BodyEnd body'))) with (route req).
  destruct (route req) as [[]|]; try reflexivity; congruence.
Qed.

Lemma body_read_only_by_create_and_update_witness :
  route delete_task_85 <> Some CreateTask /\
  server host_with_key (set_stream delete_task_85 (BodyEnd Malformed))
  = server host_with_key (set_stream delete_task_85 (BodyEnd (Json title_t))).
Proof.
  assert (H1 : route delete_task_85 <> Some CreateTask) by discriminate.
  assert (H2 : route delete_task_85 <> Some UpdateTask) by discriminate.
  split; [exact H1|].
  exact (body_read_only_by_create_and_update host_with_key delete_task_85
           Malformed (Json title_t) H1 H2).
Defined.

(** X8. Only the list reads the query: for every other request the
    answer and the request sent are the same whatever the query
    holds. *)
Theorem query_read_only_by_list (h : host) (req : request)
    (q : list (string * string)) :
  route req <> Some ListTasks ->
  server h (set_searchParams req q) = server h req.
Proof.
  intros Hl. unfold server, try_block.
  change (route (set_searchParams req q)) with (route req).
  change (req_method (set_searchParams req q)) with (req_method req).
  change (pathname (set_searchParams req q)) with (pathname req).
  change (static h (set_searchParams req q)) with (static h req).
  destruct (route req) as [[]|]; try reflexivity; congruence.
Qed.

Lemma query_read_only_by_list_witness :
  route get_task_85 <> Some ListTasks /\
  server host_with_key (set_searchParams get_task_85 [("limit", "5"); ("ready", "true")])
  = server host_with_key get_task_85.
Proof.
  assert (H1 : route get_task_85 <> Some ListTasks) by discriminate.
  split; [exact H1|].
  exact (query_read_only_by_list host_with_key get_task_85
           [("limit", "5"); ("ready", "true")] H1).
Defined.

(** X9. A routed request is read through the first three segments of
    its path that are not empty: a path with the same three, whatever
    its doubled or trailing slashes and whatever follows the third
    segment, gets the same answer. *)
Theorem routed_by_three_segments (h : host) (req : request) (op : operation)
    (p : string) :
  route req = Some op ->
  part (set_pathname req p) 0 = part req 0 ->
  part (set_pathname req p) 1 = part req 1 ->
  part (set_pathname req p) 2 = part req 2 ->
  route (set_pathname req p) = Some op /\
  server h (set_pathname req p) = server h req.
Proof.
  intros Hr H0 H1 H2.
  assert (Hr' : route (set_pathname req p) = Some op).
  { unfold route in *. rewrite H0, H1, H2. exact Hr. }
  split; [exact Hr'|].
  rewrite (server_routed h req op Hr), (server_routed h _ op Hr').
  replace (api h (set_pathname req p) op) with (api h req op); [reflexivity|].
  destruct op; unfold api; rewrite ?H2; reflexivity.
Qed.

Lemma routed_by_three_segments_witness :
  route delete_task_85 = Some DeleteTask /\
  server host_with_key (set_pathname delete_task_85 "//api/tasks//85/comments/")
  = server host_with_key delete_task_85.
Proof.
  split; [reflexivity|].
  exact (proj2 (routed_by_three_segments host_with_key delete_task_85 DeleteTask
                  "//api/tasks//85/comments/" eq_refl eq_refl eq_refl eq_refl)).
Defined.

Lemma pathParts_health (req : request) :
  pathname req = "/api/health" -> part req 1 = VStr "health".
Proof. intros Hp. unfold part, pathParts. rewrite Hp. reflexivity. Qed.

(** X10. Under [/api/tasks] only five combinations are operations: a
    POST with an identifier, a PUT or a DELETE without one, and every
    other method are not routed and cause no remote request.  Of these
    requests a preflight (OPTIONS) is answered 204; every other one is
    answered as a static file of that path is: by the file, by 404 when
    there is none, by 500 for another error of the read. *)
Theorem other_combinations_are_not_routed (h : host) (req : request) :
  part req 0 = VStr "api" -> part req 1 = VStr "tasks" ->
  (req_method req = "POST" /\ ToBoolean (part req 2) = true) \/
  ((req_method req = "PUT" \/ req_method req = "DELETE") /\
   ToBoolean (part req 2) = false) \/
  (req_method req <> "GET" /\ req_method req <> "POST" /\
   req_method req <> "PUT" /\ req_method req <> "DELETE") ->
  route req = None /\ fst (server h req) = [] /\
  (req_method req = "OPTIONS" ->
   server h req = ([], {| status := 204; res_headers := cors; sent := NoBody |})) /\
  (req_method req <> "OPTIONS" ->
   server h req
   = ([], match static h req with
          | Return res => res
          | Throw e => sendJson (error_body (message e)) 500
          end)).
Proof.
  intros H0 H1 H.
  assert (Hr : route req = None).
  { unfold route. destruct (_ && _); [|reflexivity].
    destruct H as [[Hm Ht]|[[[Hm|Hm] Ht]|[G1 [G2 [G3 G4]]]]].
    - rewrite Hm, Ht. reflexivity.
    - rewrite Hm, Ht. reflexivity.
    - rewrite Hm, Ht. reflexivity.
    - destruct (String.eqb_spec (req_method req) "GET"); [contradiction|].
      destruct (String.eqb_spec (req_method req) "POST"); [contradiction|].
      destruct (String.eqb_spec (req_method req) "PUT"); [contradiction|].
      destruct (String.eqb_spec (req_method req) "DELETE"); [contradiction|].
      reflexivity. }
  split; [exact Hr|]. split; [now apply server_unrouted|].
  unfold server, try_block. rewrite Hr.
  destruct (String.eqb_spec (req_method req) "OPTIONS") as [E|E].
  - split; [reflexivity | intros G; contradiction].
  - split; [intros G; contradiction|]. intros _.
    destruct (String.eqb_spec (pathname req) "/api/health") as [Hp|Hp].
    + apply pathParts_health in Hp. rewrite H1 in Hp. discriminate.
    + unfold lift. now destruct (static h req).
Qed.

Lemma other_combinations_are_not_routed_witness :
  part (plain_request "PUT" "/api/tasks") 0 = VStr "api" /\
  req_method (plain_request "PUT" "/api/tasks") = "PUT" /\
  route (plain_request "PUT" "/api/tasks") = None /\
  server host_with_key (plain_request "PUT" "/api/tasks")
  = ([], {| status := 404;
            res_headers := (cors ++ [("Content-Type", "text/plain")])%list;
            sent := Plain "Not Found" |}).
Proof.
  split; [reflexivity|]. split; [reflexivity|].
  assert (Hm : req_method (plain_request "PUT" "/api/tasks") <> "OPTIONS") by discriminate.
  destruct (other_combinations_are_not_routed host_with_key
              (plain_request "PUT" "/api/tasks") eq_refl eq_refl
              (or_intror (or_introl (conj (or_introl eq_refl) eq_refl))))
    as [Hr [_ [_ Hs]]].
  split; [exact Hr|]. now rewrite (Hs Hm).
Defined.

(** ** The body of create and update *)

(** X11. Create and update forward only the six task fields, and update
    the identifier of the path besides: any other property of the body
    is dropped, and a [taskID] in the body never replaces the one of the
    path. *)
Theorem only_task_fields_are_forwarded (taskId body : value)
    (created updated : object) :
  createParams body = Return created -> updateParams taskId body = Return updated ->
  (forall k, In k (keys created) -> In k fields) /\
  (forall k, In k (keys updated) -> k = "taskID" \/ In k fields) /\
  lookup "taskID" updated = (if is_undefined taskId then None else Some taskId).
Proof.
  intros Hc Hu. split; [|split].
  - intros k Hin. destruct (In_keys_lookup k created Hin) as [v Hv].
    rewrite (lookup_createParams body created k Hc) in Hv.
    apply kept_Some in Hv as [Hv _]. apply lookup_In in Hv. simpl in Hv.
    unfold fields.
    repeat match goal with
           | H : _ \/ _ |- _ => destruct H as [H|H]
           | H : False |- _ => destruct H
           | H : (_, _) = (_, _) |- _ => inversion H; clear H; subst k
           end; simpl; auto 10.
  - intros k Hin. destruct (In_keys_lookup k updated Hin) as [v Hv].
    rewrite (lookup_updateParams taskId body updated k Hu) in Hv.
    apply kept_Some in Hv as [Hv _]. apply lookup_In in Hv. simpl in Hv.
    unfold fields.
    repeat match goal with
           | H : _ \/ _ |- _ => destruct H as [H|H]
           | H : False |- _ => destruct H
           | H : (_, _) = (_, _) |- _ => inversion H; clear H; subst k
           end; simpl; auto 10.
  - rewrite (lookup_updateParams taskId body updated "taskID" Hu). reflexivity.
Qed.

Lemma only_task_fields_are_forwarded_witness :
  createParams body_with_more = Return [("title", VStr "t"); ("status", VStr "open")] /\
  updateParams (VStr "85") body_with_more
  = Return [("taskID", VStr "85"); ("title", VStr "t")] /\
  lookup "taskID" [("taskID", VStr "85"); ("title", VStr "t")] = Some (VStr "85").
Proof.
  split; [reflexivity|]. split; [reflexivity|].
  exact (proj2 (proj2 (only_task_fields_are_forwarded (VStr "85") body_with_more
                         [("title", VStr "t"); ("status", VStr "open")]
                         [("taskID", VStr "85"); ("title", VStr "t")]
                         eq_refl eq_refl))).
Defined.

(** X12. A body that holds none of the six fields (no body at all, [{}],
    or JSON that is an array, a string, a number or a boolean) is no
    error: create then sends exactly [{status: "open"}], without a
    title, and update sends the identifier alone. *)
Theorem body_without_fields_is_accepted (h : host) (req : request) (body : value) :
  parseBody req = Return body -> nullish body = false ->
  (forall k, In k fields -> GetOpt body k = VUndefined) ->
  params_of h req CreateTask = Return [("status", VStr "open")] /\
  params_of h req UpdateTask
  = Return (if is_undefined (part req 2) then [] else [("taskID", part req 2)]).
Proof.
  intros Hb Hn Hf. unfold params_of. rewrite Hb. simpl rbind.
  rewrite (createParams_nullish body Hn), (updateParams_nullish (part req 2) body Hn).
  unfold create_literal, update_literal.
  rewrite !Hf by (unfold fields; simpl; auto 10).
  split; [reflexivity|]. now destruct (part req 2).
Qed.

Lemma body_without_fields_is_accepted_witness :
  parseBody (plain_request "POST" "/api/tasks") = Return (VObj []) /\
  params_of host_with_key (plain_request "POST" "/api/tasks") CreateTask
  = Return [("status", VStr "open")] /\
  parseBody (post_tasks (Json (VArr [VStr "title"]))) = Return (VArr [VStr "title"]) /\
  params_of host_with_key (post_tasks (Json (VArr [VStr "title"]))) CreateTask
  = Return [("status", VStr "open")].
Proof.
  split; [reflexivity|]. split.
  - apply (body_without_fields_is_accepted host_with_key
             (plain_request "POST" "/api/tasks") (VObj []) eq_refl eq_refl).
    intros k _. reflexivity.
  - split; [reflexivity|].
    apply (body_without_fields_is_accepted host_with_key
             (post_tasks (Json (VArr [VStr "title"]))) (VArr [VStr "title"])
             eq_refl eq_refl).
    intros k _. reflexivity.
Defined.

(** X13. A body that is the JSON [null] makes create and update fail on
    the first property they read: the answer is a 500 with the message
    of that TypeError, and nothing is sent, whatever the credential. *)
Theorem null_body_is_an_error (h : host) (req : request) (op : operation) :
  route req = Some op -> op = CreateTask \/ op = UpdateTask ->
  stream req = BodyEnd (Json VNull) ->
  server h req = ([], sendJson (error_body (message (cannot_read "null" "title"))) 500).
Proof.
  intros Hr Hop Hs. rewrite (server_routed h req op Hr).
  rewrite (api_without_params h req op (cannot_read "null" "title")); [reflexivity|].
  destruct Hop; subst op; unfold params_of, parseBody; now rewrite Hs.
Qed.

Lemma null_body_is_an_error_witness :
  route (post_tasks (Json VNull)) = Some CreateTask /\
  fst (server host_with_key (post_tasks (Json VNull))) = [] /\
  status (snd (server host_with_key (post_tasks (Json VNull)))) = 500.
Proof.
  split; [reflexivity|].
  rewrite (null_body_is_an_error host_with_key (post_tasks (Json VNull)) CreateTask
             eq_refl (or_introl eq_refl) eq_refl).
  split; reflexivity.
Defined.

(** X14. Create and update read their body before anything else: a body
    that is not JSON is answered with a 500 and the fixed message
    ["Invalid JSON in request body"], an error of the body stream with a
    500 and the message of that error; in both cases nothing is sent,
    whatever the credential. *)
Theorem unreadable_body_is_an_error (h : host) (req : request) (op : operation) :
  route req = Some op -> op = CreateTask \/ op = UpdateTask ->
  (stream req = BodyEnd Malformed ->
   server h req = ([], sendJson (error_body "Invalid JSON in request body") 500)) /\
  (forall e, stream req = BodyError e ->
   server h req = ([], sendJson (error_body (message e)) 500)).
Proof.
  intros Hr Hop. rewrite (server_routed h req op Hr). split.
  - intros Hs.
    rewrite (api_without_params h req op (Error "Invalid JSON in request body"));
      [reflexivity|].
    destruct Hop; subst op; unfold params_of, parseBody; now rewrite Hs.
  - intros e Hs. rewrite (api_without_params h req op e); [reflexivity|].
    destruct Hop; subst op; unfold params_of, parseBody; now rewrite Hs.
Qed.

Lemma unreadable_body_is_an_error_witness :
  route (post_tasks Malformed) = Some CreateTask /\
  server host_with_key (post_tasks Malformed)
  = ([], sendJson (error_body "Invalid JSON in request body") 500).
Proof.
  split; [reflexivity|].
  exact (proj1 (unreadable_body_is_an_error host_with_key (post_tasks Malformed)
                  CreateTask eq_refl (or_introl eq_refl)) eq_refl).
Defined.

(** ** The resolver at its edges *)

(** X15. When the environment has neither [HOME] nor [USERPROFILE] (or
    an empty [HOME] and no [USERPROFILE]) the path of the secrets file
    cannot be built, and the resolver throws before its [try]: every
    route whose params are built answers 500 with the message of that
    TypeError and sends nothing, even when [AMP_API_KEY] is set. *)
Theorem no_home_directory_is_an_error (h : host) (req : request) (op : operation)
    (params : object) :
  home_dir h = VUndefined ->
  route req = Some op -> params_of h req op = Return params ->
  getApiKey h = Throw (ERR_INVALID_ARG_TYPE "undefined") /\
  server h req
  = ([], sendJson (error_body (message (ERR_INVALID_ARG_TYPE "undefined"))) 500).
Proof.
  intros Hh Hr Hp.
  assert (Hk : getApiKey h = Throw (ERR_INVALID_ARG_TYPE "undefined")).
  { unfold getApiKey, secretsPath. now rewrite Hh. }
  split; [exact Hk|].
  rewrite (server_routed h req op Hr), (api_with_params h req op params Hp).
  now rewrite (ampApiRequest_throws h _ _ _ Hk).
Qed.

Lemma no_home_directory_is_an_error_witness :
  env host_without_home "AMP_API_KEY" = Some "override" /\
  home_dir host_without_home = VUndefined /\
  route (get_tasks []) = Some ListTasks /\
  fst (server host_without_home (get_tasks [])) = [] /\
  status (snd (server host_without_home (get_tasks []))) = 500.
Proof.
  destruct (no_home_directory_is_an_error host_without_home (get_tasks []) ListTasks
              [("limit", VNum (number_of_Z 100))] eq_refl eq_refl eq_refl) as [_ H].
  repeat split; now rewrite H.
Defined.

(** X16. A secrets file that is JSON but no object (an array, a string,
    a number, a boolean, [null]) is no error: no key is found in it,
    and the resolver returns the override of the environment. *)
Theorem secrets_that_are_no_object (h : host) (p : string) (secrets : value) :
  secretsPath h = Return p -> readFileSync h p = FileData (Json secrets) ->
  (forall o, secrets <> VObj o) ->
  getApiKey h = Return (process_env h "AMP_API_KEY").
Proof.
  intros Hp Hf Hno. rewrite (getApiKey_resolved h p Hp).
  unfold file_key, readFile. rewrite Hf. simpl.
  destruct secrets as [| | | | | |o]; try reflexivity.
  now contradiction (Hno o).
Qed.

Lemma secrets_that_are_no_object_witness :
  secretsPath (host_with_secrets (Json VNull)) = Return sample_secrets_path /\
  getApiKey (host_with_secrets (Json VNull)) = Return (VStr "override").
Proof.
  split; [reflexivity|].
  apply (secrets_that_are_no_object (host_with_secrets (Json VNull))
           sample_secrets_path VNull eq_refl eq_refl).
  intros o. discriminate.
Defined.

(** ** What the remote answers *)








(** ** The answers that need no remote *)

Lemma route_health (req : request) :
  pathname req = "/api/health" -> route req = None.
Proof. intros Hp. unfold route, part, pathParts. rewrite Hp. reflexivity. Qed.

(** X20. The health check needs nothing: for the path [/api/health] and
    every method but OPTIONS the answer is a 200 with
    [{ok: true, timestamp}], whatever the credential, the body and the
    remote, and nothing is sent. *)
Theorem health_check_needs_nothing (h : host) (req : request) :
  pathname req = "/api/health" -> req_method req <> "OPTIONS" ->
  server h req
  = ([], sendJson (VObj [("ok", VBool true);
                         ("timestamp", VStr (toISOString_now h))]) 200).
Proof.
  intros Hp Hm. unfold server, try_block. rewrite (route_health req Hp), Hp.
  destruct (String.eqb_spec (req_method req) "OPTIONS"); [contradiction|reflexivity].
Qed.

Lemma health_check_needs_nothing_witness :
  pathname (plain_request "GET" "/api/health") = "/api/health" /\
  server host_without_home (plain_request "GET" "/api/health")
  = ([], sendJson (VObj [("ok", VBool true);
                         ("timestamp", VStr "2026-01-01T00:00:00.000Z")]) 200).
Proof.
  split; [reflexivity|].
  apply (health_check_needs_nothing host_without_home (plain_request "GET" "/api/health")
           eq_refl).
  discriminate.
Defined.

(** X21. A request that is no operation and no health check is served
    from the files: the content with status 200 and the type of its
    extension when the file is read, the plain text ["Not Found"] with
    status 404 when the file is missing, and a 500 with the message of
    the error for every other error of the read; nothing is sent to the
    remote. *)
Theorem static_answers (h : host) (req : request) :
  route req = None -> pathname req <> "/api/health" -> req_method req <> "OPTIONS" ->
  fst (server h req) = [] /\
  (forall content, readFileSync h (filePath h req) = FileData content ->
     snd (server h req)
     = {| status := 200;
          res_headers := (cors ++ [("Content-Type", getMimeType (filePath h req))])%list;
          sent := Text content |}) /\
  (forall e, readFileSync h (filePath h req) = FileError e -> code e = Some "ENOENT" ->
     snd (server h req)
     = {| status := 404;
          res_headers := (cors ++ [("Content-Type", "text/plain")])%list;
          sent := Plain "Not Found" |}) /\
  (forall e, readFileSync h (filePath h req) = FileError e -> code e <> Some "ENOENT" ->
     snd (server h req) = sendJson (error_body (message e)) 500).
Proof.
  intros Hr Hp Hm. split; [now apply server_unrouted|].
  unfold server, try_block. rewrite Hr.
  destruct (String.eqb_spec (req_method req) "OPTIONS"); [contradiction|].
  destruct (String.eqb_spec (pathname req) "/api/health"); [contradiction|].
  unfold lift, static. fold (filePath h req).
  split; [|split].
  - intros content Hf. now rewrite Hf.
  - intros e Hf Hc. rewrite Hf, Hc. reflexivity.
  - intros e Hf Hc. rewrite Hf. destruct (code e) as [c|]; [|reflexivity].
    destruct (String.eqb_spec c "ENOENT") as [->|]; [now contradiction Hc|reflexivity].
Qed.

Lemma static_answers_witness :
  route (plain_request "GET" "/") = None /\
  filePath (host_with_file "index.html" (FileError EACCES)) (plain_request "GET" "/")
  = "/srv/amp-task-management/index.html" /\
  snd (server (host_with_file "index.html" (FileError EACCES)) (plain_request "GET" "/"))
  = sendJson (error_body "EACCES: permission denied") 500 /\
  status (snd (server host_with_key (plain_request "GET" "/missing.css"))) = 404.
Proof.
  split; [reflexivity|]. split; [reflexivity|]. split.
  - assert (Hp : pathname (plain_request "GET" "/") <> "/api/health") by discriminate.
    assert (Hm : req_method (plain_request "GET" "/") <> "OPTIONS") by discriminate.
    destruct (static_answers (host_with_file "index.html" (FileError EACCES))
                (plain_request "GET" "/") eq_refl Hp Hm) as [_ [_ [_ H]]].
    apply (H EACCES eq_refl). discriminate.
  - assert (Hp : pathname (plain_request "GET" "/missing.css") <> "/api/health")
      by discriminate.
    assert (Hm : req_method (plain_request "GET" "/missing.css") <> "OPTIONS")
      by discriminate.
    destruct (static_answers host_with_key (plain_request "GET" "/missing.css")
                eq_refl Hp Hm) as [_ [_ [H _]]].
    now rewrite (H ENOENT eq_refl eq_refl).
Defined.

(** ** The params of the list *)

(** X22. The limit the list hands to the remote call is always a
    number that is neither zero nor [NaN]; the request is written with
    that number, or with [null] in its place when the parse overflowed
    to an infinity.  The list hands over [status] and [repoURL] as the
    query has them when they are not empty and leaves them out
    otherwise, an empty value being treated as an absent one; and it
    hands over no other key than these and [ready]. *)
Theorem list_params_shape (h : host) (req : request) :
  (exists n, lookup "limit" (listParams h req) = Some (VNum n) /\
             number_truthy n = true /\
             lookup "limit" (jsonify_props (listParams h req))
             = Some (match n with Infinity _ => VNull | _ => VNum n end)) /\
  (forall r, route req = Some ListTasks -> In r (fst (server h req)) ->
     written r = Json (VObj [("method", VStr "listTasks");
                             ("params", VObj (jsonify_props (listParams h req)))])) /\
  (forall k, k = "status" \/ k = "repoURL" ->
     lookup k (listParams h req)
     = match searchParams_get (searchParams req) k with
       | VStr s => if (s =? "")%string then None else Some (VStr s)
       | _ => None
       end) /\
  (forall k, In k (keys (listParams h req)) ->
     In k ["limit"; "status"; "repoURL"; "ready"]).
Proof.
  split; [|split; [|split]].
  - assert (Hl : exists n, lookup "limit" (listParams h req) = Some (VNum n) /\
                           number_truthy n = true).
    { rewrite lookup_limit. unfold or_else. simpl ToBoolean.
      destruct (number_truthy (parseInt _)) eqn:E; eexists; split;
        try reflexivity; assumption. }
    destruct Hl as [n [Hl Hn]]. exists n. split; [exact Hl|]. split; [exact Hn|].
    rewrite (written_limit h req n Hl). destruct n; try reflexivity. discriminate.
  - intros r Hr Hin.
    destruct (server_requests h req ListTasks r Hr Hin) as [params [k [Hp [_ [_ [_ ->]]]]]].
    simpl in Hp. inversion Hp; subst params. apply written_remote_request.
  - intros k Hk.
    assert (Hget : forall name, searchParams_get (searchParams req) name = VNull \/
                                exists s, searchParams_get (searchParams req) name = VStr s).
    { intros name. induction (searchParams req) as [|[k' v] q IH]; simpl; [now left|].
      destruct (k' =? name)%string; [right; now exists v | exact IH]. }
    unfold listParams.
    destruct (Hget "status") as [Es|[s Es]], (Hget "repoURL") as [Er|[r Er]];
      rewrite ?Es, ?Er; simpl ToBoolean;
      destruct (is_string "true" (searchParams_get (searchParams req) "ready"));
      destruct Hk as [-> | ->]; rewrite ?Es, ?Er;
      try destruct (s =? "")%string; try destruct (r =? "")%string; reflexivity.
  - intros k Hin. destruct (listParams_keys h req k Hin) as [->|[_ Ht]]; [simpl; auto|].
    revert Hin. unfold listParams.
    destruct (ToBoolean (searchParams_get (searchParams req) "status")),
             (ToBoolean (searchParams_get (searchParams req) "repoURL")),
             (is_string "true" (searchParams_get (searchParams req) "ready"));
      simpl; intuition.
Qed.

(** ** The removal of [undefined] values *)

(** X23. On an object (whose keys are distinct) the removal keeps
    exactly the properties whose value is not [undefined], with their
    values and in their order: what it returns holds no [undefined],
    every other property is still there, and removing again changes
    nothing. *)
Theorem remove_undefined_keeps_the_defined (o : object) :
  NoDup (keys o) ->
  remove_undefined o = filter (fun kv => negb (is_undefined (snd kv))) o /\
  (forall k v, In (k, v) (remove_undefined o) <-> In (k, v) o /\ v <> VUndefined) /\
  remove_undefined (remove_undefined o) = remove_undefined o.
Proof.
  intros Hnd. pose proof (remove_undefined_filter o Hnd) as Hf.
  split; [exact Hf|]. split.
  - intros k v. rewrite Hf, filter_In. simpl.
    split; intros [H1 H2]; (split; [exact H1|]).
    + intros ->. discriminate.
    + now destruct v.
  - rewrite Hf at 2. rewrite Hf.
    rewrite (remove_undefined_filter _ (NoDup_keys_filter _ o Hnd)).
    rewrite filter_filter. apply filter_ext. intros kv.
    now destruct (negb (is_undefined (snd kv))).
Qed.

Lemma remove_undefined_keeps_the_defined_witness :
  NoDup (keys [("title", VStr "t"); ("description", VUndefined); ("parentID", VNull)]) /\
  remove_undefined [("title", VStr "t"); ("description", VUndefined); ("parentID", VNull)]
  = [("title", VStr "t"); ("parentID", VNull)].
Proof.
  assert (Hnd : NoDup (keys [("title", VStr "t"); ("description", VUndefined);
                             ("parentID", VNull)])).
  { simpl. repeat (constructor; [simpl; intuition discriminate|]). constructor. }
  split; [exact Hnd|].
  exact (proj1 (remove_undefined_keeps_the_defined _ Hnd)).
Defined.

(** ** The type of a static file *)

Lemma lower_idempotent (c : ascii) : lower (lower c) = lower c.
Proof. destruct c as [[] [] [] [] [] [] [] []]; reflexivity. Qed.

Lemma lower_is_slash (c : ascii) : Ascii.eqb (lower c) "/" = Ascii.eqb c "/".
Proof. destruct c as [[] [] [] [] [] [] [] []]; reflexivity. Qed.

Lemma lower_is_dot (c : ascii) : Ascii.eqb (lower c) "." = Ascii.eqb c ".".
Proof. destruct c as [[] [] [] [] [] [] [] []]; reflexivity. Qed.

Lemma toLowerCase_idempotent (s : string) :
  toLowerCase (toLowerCase s) = toLowerCase s.
Proof. induction s as [|c s IH]; simpl; [reflexivity|]. now rewrite lower_idempotent, IH. Qed.

Lemma toLowerCase_is_empty (s : string) :
  (toLowerCase s =? "")%string = (s =? "")%string.
Proof. now destruct s. Qed.

Lemma split_toLowerCase (s : string) :
  split "/" (toLowerCase s) = map toLowerCase (split "/" s).
Proof.
  induction s as [|c s IH]; simpl; [reflexivity|].
  rewrite lower_is_slash, IH. destruct (Ascii.eqb c "/"); [reflexivity|].
  now destruct (split "/" s).
Qed.

Lemma filter_nonempty_toLowerCase (l : list string) :
  filter (fun x => negb (x =? "")%string) (map toLowerCase l)
  = map toLowerCase (filter (fun x => negb (x =? "")%string) l).
Proof.
  induction l as [|x l IH]; simpl; [reflexivity|].
  rewrite toLowerCase_is_empty, IH. now destruct (x =? "")%string.
Qed.

Lemma from_last_dot_toLowerCase (first : bool) (s : string) :
  from_last_dot first (toLowerCase s) = option_map toLowerCase (from_last_dot first s).
Proof.
  revert first. induction s as [|c s IH]; intros first; simpl; [reflexivity|].
  rewrite IH, lower_is_dot. destruct (from_last_dot false s); simpl; [reflexivity|].
  now destruct (Ascii.eqb c "." && negb first).
Qed.

Lemma toLowerCase_is_dots (s : string) :
  (toLowerCase s =? "..")%string = (s =? "..")%string.
Proof.
  destruct s as [|c1 [|c2 [|c3 s]]]; try reflexivity.
  - unfold String.eqb; fold String.eqb. simpl toLowerCase.
    unfold String.eqb; fold String.eqb. now rewrite lower_is_dot.
  - simpl toLowerCase. unfold String.eqb; fold String.eqb.
    rewrite !lower_is_dot. reflexivity.
  - simpl toLowerCase. unfold String.eqb; fold String.eqb.
    rewrite !lower_is_dot. reflexivity.
Qed.

(** The extension of a path in lower case is the extension in lower
    case. *)
Lemma extname_toLowerCase (p : string) :
  extname (toLowerCase p) = toLowerCase (extname p).
Proof.
  unfold extname.
  rewrite split_toLowerCase, filter_nonempty_toLowerCase, <- map_rev.
  destruct (rev _) as [|base l]; simpl; [reflexivity|].
  rewrite toLowerCase_is_dots. destruct (base =? "..")%string; [reflexivity|].
  rewrite from_last_dot_toLowerCase. now destruct (from_last_dot true base).
Qed.

(** X24. The type of a file is one of the eight of the table or
    [text/plain]; it does not depend on the case of the ASCII letters of
    the path, so [.HTML] is served as [.html]; and a name without
    extension is served as [text/plain]. *)
Theorem mime_type_of_a_path (filePath : string) :
  In (getMimeType filePath) mime_types /\
  getMimeType (toLowerCase filePath) = getMimeType filePath /\
  (extname filePath = "" -> getMimeType filePath = "text/plain").
Proof.
  split; [|split].
  - unfold getMimeType.
    destruct (find _ _) as [kv|] eqn:E; [|simpl; auto 10].
    apply find_some in E as [Hin _]. simpl in Hin. unfold mime_types.
    repeat match goal with
           | H : _ \/ _ |- _ => destruct H as [H|H]
           | H : False |- _ => destruct H
           end; subst kv; simpl; auto 10.
  - unfold getMimeType. now rewrite extname_toLowerCase, toLowerCase_idempotent.
  - intros E. unfold getMimeType. rewrite E. reflexivity.
Qed.

Lemma mime_type_of_a_path_witness :
  extname "/srv/amp-task-management/LICENSE" = "" /\
  getMimeType "/srv/amp-task-management/LICENSE" = "text/plain" /\
  getMimeType "/srv/amp-task-management/INDEX.HTML" = "text/html".
Proof.
  split; [reflexivity|]. split.
  - exact (proj2 (proj2 (mime_type_of_a_path "/srv/amp-task-management/LICENSE")) eq_refl).
  - rewrite <- (proj1 (proj2 (mime_type_of_a_path "/srv/amp-task-management/INDEX.HTML"))).
    reflexivity.
Defined.
